(** * collect_results.py: consolidation of Eco-CI energy measurements

    A shallow embedding of [scripts/collect_results.py].  Python values are
    a tagged union, dictionaries read from JSON are finite maps, the script's
    effects (printing, HTTP requests, reading the clock, sleeping, writing
    the CSV file) are events appended to a trace by a state-and-exception
    monad, and what the script meets outside itself (the environment, the
    libraries [requests], [zipfile], [json], [time] and [csv], the file
    system, the interpreter's recursion limit and the Unicode tables behind
    [str.lower]) are the fields of a type class, so that every theorem holds
    for every behaviour of those. *)

From Stdlib Require Import String Ascii ZArith List Bool Lia.
From Stdlib Require Import Init.Byte.
From Stdlib Require Import Floats.SpecFloat.
From stdpp Require Import gmap strings list.

Set Warnings "-register-all".

Local Open Scope Z_scope.
Local Open Scope list_scope.

(** ** Strings: the [str] methods the script uses *)

Module Str.

(** [s.startswith(prefix)] *)
Definition startswith (s prefix : string) : bool := String.prefix prefix s.

(** [s.endswith(suffix)] *)
Definition endswith (s suffix : string) : bool :=
  let n := String.length s in
  let k := String.length suffix in
  (k <=? n)%nat && String.eqb (String.substring (n - k) k s) suffix.

(** [s[n:]] *)
Fixpoint slice_from (n : nat) (s : string) : string :=
  match n, s with
  | O, _ => s
  | S _, EmptyString => EmptyString
  | S n', String _ s' => slice_from n' s'
  end.

(** [s.split(sep)] for a one-character separator: never the empty list. *)
Fixpoint split (s : string) (sep : ascii) : list string :=
  match s with
  | EmptyString => [EmptyString]
  | String c s' =>
      if Ascii.eqb c sep then EmptyString :: split s' sep
      else match split s' sep with
           | t :: ts => String c t :: ts
           | [] => [String c EmptyString]
           end
  end.

(** [sep.join(parts)] *)
Fixpoint join (sep : ascii) (parts : list string) : string :=
  match parts with
  | [] => EmptyString
  | [t] => t
  | t :: ts => t +:+ String sep (join sep ts)
  end.

(** [c in s] for a character [c] *)
Fixpoint has_char (c : ascii) (s : string) : bool :=
  match s with
  | EmptyString => false
  | String c' s' => Ascii.eqb c' c || has_char c s'
  end.

(** [sub in s] *)
Fixpoint contains (s sub : string) : bool :=
  startswith s sub ||
  match s with
  | EmptyString => false
  | String _ s' => contains s' sub
  end.

(** Text of ASCII characters only: every byte is below 128. *)
Definition is_ascii (s : string) : bool :=
  forallb (fun c => (nat_of_ascii c <? 128)%nat) (list_ascii_of_string s).

(** What [s.lower()] is on ASCII text: the letters A to Z are lowered and
    nothing else changes.  On other text [s.lower()] follows the Unicode
    tables, which are left to the platform. *)
Definition ascii_lower_char (c : ascii) : ascii :=
  let n := nat_of_ascii c in
  if ((65 <=? n) && (n <=? 90))%nat then ascii_of_nat (n + 32) else c.

Fixpoint ascii_lower (s : string) : string :=
  match s with
  | EmptyString => EmptyString
  | String c s' => String (ascii_lower_char c) (ascii_lower s')
  end.

(** A byte that continues a UTF-8 sequence: 10xxxxxx. *)
Definition is_continuation (c : ascii) : bool :=
  let n := nat_of_ascii c in ((128 <=? n) && (n <? 192))%nat.

(** The characters of a text held as UTF-8: what [for c in s] draws. *)
Fixpoint code_points (s : string) : list string :=
  match s with
  | EmptyString => []
  | String c s' =>
      match s' with
      | String c' _ =>
          if is_continuation c' then
            match code_points s' with
            | p :: ps => String c p :: ps
            | [] => [String c EmptyString]
            end
          else String c EmptyString :: code_points s'
      | EmptyString => [String c EmptyString]
      end
  end.

(** [parts[-1]] of a list of strings *)
Definition last_part (parts : list string) : string := List.last parts EmptyString.

End Str.

(** ** Python values

    What [json.load] and [resp.json()] return, and what the script passes
    around untouched.  A JSON object is a finite map from its keys; a float is
    an IEEE 754 binary64 value. *)

Inductive pyvalue : Type :=
| PyNone
| PyBool (b : bool)
| PyInt (n : Z)
| PyFloat (f : spec_float)
| PyStr (s : string)
| PyList (l : list pyvalue)
| PyDict (d : gmap string pyvalue).

(** The float literal [0.0]. *)
Definition float_zero : spec_float := S754_zero false.

(** [bool(v)], as tested by [if not v]. *)
Definition truthy (v : pyvalue) : bool :=
  match v with
  | PyNone => false
  | PyBool b => b
  | PyInt n => negb (n =? 0)
  | PyFloat (S754_zero _) => false
  | PyFloat _ => true
  | PyStr s => negb (String.eqb s EmptyString)
  | PyList l => match l with [] => false | _ => true end
  | PyDict d => negb (bool_decide (d = ∅))
  end.

(** [bool(s)] for a value read from the environment ([None] when unset). *)
Definition env_truthy (v : option string) : bool :=
  match v with
  | None => false
  | Some s => negb (String.eqb s EmptyString)
  end.

(** ** Exceptions and results *)

Inductive exn : Type :=
| BadZipFile
| JSONDecodeError (msg : string)
| AttributeError
| TypeError
| KeyError (key : string)
| HTTPError (status : Z)
| SystemExit (code : Z)
| RecursionError
| OtherError (name : string).

(** The result of a call that does not touch the world. *)
Inductive result (A : Type) : Type :=
| Ok (a : A)
| Raise (e : exn).
Arguments Ok {A} a.
Arguments Raise {A} e.

(** [d[key]] of a value taken for a dict. *)
Definition getitem (v : pyvalue) (key : string) : result pyvalue :=
  match v with
  | PyDict d =>
      match d !! key with
      | Some x => Ok x
      | None => Raise (KeyError key)
      end
  | _ => Raise TypeError
  end.

(** [d.get(key, dflt)] of a value taken for a dict. *)
Definition get (v : pyvalue) (key : string) (dflt : pyvalue) : result pyvalue :=
  match v with
  | PyDict d => Ok (default dflt (d !! key))
  | _ => Raise AttributeError
  end.

(** The elements a [for] loop or [list.extend] draws from a value.  A dict
    gives its keys, here in the order of [map_to_list]: wherever the script
    iterates over a value, the first key of a dict already ends the loop
    with an exception, whichever key it is. *)
Definition iterate (v : pyvalue) : result (list pyvalue) :=
  match v with
  | PyList l => Ok l
  | PyDict d => Ok (map (fun kv => PyStr (fst kv)) (map_to_list d))
  | PyStr s => Ok (map PyStr (Str.code_points s))
  | _ => Raise TypeError
  end.

(** ** Records of the data model *)

(** One entry of [rows] in [parse_eco_ci_json]. *)
Record MeasurementRecord : Type := {
  stage : pyvalue;
  energy_joules : pyvalue;
  duration_seconds : pyvalue;
  timestamp : pyvalue;
}.

(** One entry of [all_rows] in [main]: a dict with the keys of [CSV_COLUMNS]. *)
Record OutputRow : Type := {
  row_run_id : pyvalue;
  row_config : string;
  row_workflow : pyvalue;
  row_branch : pyvalue;
  row_stage : pyvalue;
  row_energy_joules : pyvalue;
  row_duration_seconds : pyvalue;
  row_timestamp : pyvalue;
  row_python_version : string;
}.

(** ** The world: events, requests and responses *)

Inductive stream : Type := stdout | stderr.

(** An f-string: literal text and formatted values. *)
Inductive piece : Type :=
| Lit (s : string)
| Fmt (v : pyvalue).

(** [f"{v}"] of a value read from the environment. *)
Definition env_str (v : option string) : string :=
  match v with
  | Some s => s
  | None => "None"
  end.

(** The arguments of one [requests.get] call. *)
Record request : Type := {
  req_url : list piece;
  req_headers : list (string * string);
  req_params : option (gmap string pyvalue);
  req_timeout : Z;
}.

(** What the script reads of a response. *)
Record response : Type := {
  status_code : Z;
  ratelimit_reset : option string;      (* headers.get("X-RateLimit-Reset") *)
  resp_json : result pyvalue;           (* resp.json() *)
  content : list byte;                  (* resp.content *)
}.

Inductive event : Type :=
| EvPrint (f : stream) (msg : list piece)
| EvGet (req : request)
| EvTime                                    (* time.time() was read *)
| EvSleep (seconds : Z)
| EvMkdir (path : string)
| EvOpenWrite (path : string)               (* open(path, "w", ...) *)
| EvWriteHeader (fieldnames : list string)  (* the header line was written *)
| EvWriteRow (row : OutputRow)              (* the line of one row was written *)
| EvClose (path : string).                  (* the file was closed *)

(** The state of an execution: everything done so far, in order, and the
    accumulator [all_rows] of [main].  [extracted] is ghost state, which
    nothing reads: [main] notes in it every record that
    [parse_eco_ci_json] returned, with the run at hand. *)
Record state : Type := {
  trace : list event;
  all_rows : list OutputRow;
  extracted : list (pyvalue * MeasurementRecord);
}.

Definition init : state := {| trace := []; all_rows := []; extracted := [] |}.

(** [s] after the events [evs]. *)
Definition log (s : state) (evs : list event) : state :=
  {| trace := trace s ++ evs; all_rows := all_rows s; extracted := extracted s |}.

(** An opened archive: [zf.namelist()] and [zf.open(name)] read to the end. *)
Record ZipFile : Type := {
  namelist : list string;
  zf_open : string -> result (list byte);
}.

(** The environment variables, the libraries and the interpreter, as the
    script meets them.  The remote service, the clock, the file system and
    the stack may answer differently every time: they see the trace so far,
    in which every request and every reading of the clock is an event. *)
Class Platform : Type := {
  GITHUB_TOKEN : option string;       (* os.environ.get("GITHUB_TOKEN") *)
  GITHUB_REPO : option string;        (* os.environ.get("GITHUB_REPO") *)
  requests_get : list event -> request -> result response;
  time_time : list event -> Z;        (* time.time(), in whole seconds *)
  int_of_str : string -> result Z;    (* int(s) of a header value *)
  zipfile_ZipFile : list byte -> result ZipFile;
  json_load : list byte -> result pyvalue;
  str_lower : string -> string;       (* s.lower() *)
  (* how many calls of api_get nested in a first one the recursion limit of
     the interpreter leaves room for *)
  stack_room : list event -> nat;
  (* the exception, if any, with which open, the csv writer or the closing
     of the file refuses an operation on the output file *)
  file_error : list event -> event -> option exn;
}.

(** ** The monad of the script: state, exceptions, and fuel for its
    unbounded loop *)

Inductive outcome (A : Type) : Type :=
| Done (a : A)
| Raised (e : exn)
| OutOfFuel.
Arguments Done {A} a.
Arguments Raised {A} e.
Arguments OutOfFuel {A}.

Definition M (A : Type) : Type := state -> outcome A * state.

Definition ret {A : Type} (a : A) : M A := fun s => (Done a, s).

Definition bind {A B : Type} (m : M A) (f : A -> M B) : M B :=
  fun s =>
    match m s with
    | (Done a, s') => f a s'
    | (Raised e, s') => (Raised e, s')
    | (OutOfFuel, s') => (OutOfFuel, s')
    end.

Definition raise {A : Type} (e : exn) : M A := fun s => (Raised e, s).

Definition out_of_fuel {A : Type} : M A := fun s => (OutOfFuel, s).

Definition lift {A : Type} (r : result A) : M A :=
  match r with
  | Ok a => ret a
  | Raise e => raise e
  end.

#[export] Instance M_ret : MRet M := @ret.
#[export] Instance M_bind : MBind M := fun A B f m => bind m f.

Definition result_bind {A B : Type} (r : result A) (f : A -> result B) : result B :=
  match r with
  | Ok a => f a
  | Raise e => Raise e
  end.

#[export] Instance result_ret : MRet result := @Ok.
#[export] Instance result_mbind : MBind result := fun A B f r => result_bind r f.

Definition emit (e : event) : M unit :=
  fun s => (Done tt, log s [e]).

Definition print (f : stream) (msg : list piece) : M unit := emit (EvPrint f msg).

Definition sys_exit {A : Type} (code : Z) : M A := raise (SystemExit code).

(** [for x in l: body(x)]; a [continue] is the body returning early. *)
Fixpoint for_each {A : Type} (l : list A) (body : A -> M unit) : M unit :=
  match l with
  | [] => ret tt
  | x :: l' => body x;; for_each l' body
  end.

Definition append_row (r : OutputRow) : M unit :=
  fun s => (Done tt, {| trace := trace s; all_rows := all_rows s ++ [r];
                        extracted := extracted s |}).

Definition clear_rows : M unit :=
  fun s => (Done tt, {| trace := trace s; all_rows := []; extracted := extracted s |}).

(** Ghost code: the records [rows] were extracted for [run]. *)
Definition note_extracted (run : pyvalue) (rows : list MeasurementRecord) : M unit :=
  fun s => (Done tt, {| trace := trace s; all_rows := all_rows s;
                        extracted := extracted s ++ map (pair run) rows |}).

Definition get_rows : M (list OutputRow) := fun s => (Done (all_rows s), s).

(** ** The script *)

Definition nl : string := String (ascii_of_nat 10) EmptyString.

Definition WORKFLOW_CONFIG_MAP : gmap string string :=
  <["ci-consolidated.yml" := "C3"]>
    (<["coverage.yml" := "C1"]>
       (<["code-style.yml" := "C1"]>
          (<["tests.yml" := "C1"]> ∅))).

(** Iterated with [.items()], so in the order written. *)
Definition BRANCH_CONFIG_MAP : list (string * string) :=
  [ ("experiment/c1-baseline", "C1");
    ("experiment/c2-pip-cache", "C2");
    ("experiment/c3-consolidation", "C3");
    ("experiment/c4-combined", "C4") ].

Definition OUTPUT_CSV : string := "results/raw_data.csv".

Definition CSV_COLUMNS : list string :=
  [ "run_id"; "config"; "workflow"; "branch"; "stage"; "energy_joules";
    "duration_seconds"; "timestamp"; "python_version" ].

(** [for prefix, label in BRANCH_CONFIG_MAP.items(): ...] of [infer_config] *)
Fixpoint match_branch (branch : pyvalue) (items : list (string * string))
  : result (option string) :=
  match items with
  | [] => Ok None
  | (prefix, label) :: items' =>
      match branch with
      | PyStr b =>
          if String.eqb b prefix || Str.startswith b prefix then Ok (Some label)
          else match_branch branch items'
      | _ => Raise AttributeError
      end
  end.

Definition infer_config (run : pyvalue) : result string :=
  branch ← get run "head_branch" (PyStr "");
  found ← match_branch branch BRANCH_CONFIG_MAP;
  match found with
  | Some label => Ok label
  | None =>
      path ← get run "path" (PyStr "");
      match path with
      | PyStr p =>
          let workflow_file := Str.last_part (Str.split p "/") in
          Ok (default "unknown" (WORKFLOW_CONFIG_MAP !! workflow_file))
      | _ => Raise AttributeError
      end
  end.

(** [for part in ...: if part.startswith("py"): return part[2:]] *)
Fixpoint first_py (parts : list string) : string :=
  match parts with
  | [] => ""
  | part :: parts' =>
      if Str.startswith part "py" then Str.slice_from 2 part else first_py parts'
  end.

Definition infer_python_version (artifact_name : pyvalue) : result string :=
  match artifact_name with
  | PyStr name => Ok (first_py (Str.split name "-"))
  | _ => Raise AttributeError
  end.

(** The dict appended to [rows] for one measurement [m]. *)
Definition measurement_row (m : pyvalue) : result MeasurementRecord :=
  label ← get m "label" (PyStr "unknown");
  cpu ← get m "cpu_energy_J" (PyFloat float_zero);
  energy ← get m "total_energy_J" cpu;
  duration ← get m "duration" (PyFloat float_zero);
  time ← get m "time" (PyStr "");
  Ok {| stage := label; energy_joules := energy;
        duration_seconds := duration; timestamp := time |}.

(** [for m in measurements: rows.append({...})].  [rows] is a local list that
    outlives an exception, so the loop returns it together with the exception
    that ended it, if any. *)
Fixpoint append_measurements (ms : list pyvalue) (rows : list MeasurementRecord)
  : list MeasurementRecord * option exn :=
  match ms with
  | [] => (rows, None)
  | m :: ms' =>
      match measurement_row m with
      | Ok r => append_measurements ms' (rows ++ [r])
      | Raise e => (rows, Some e)
      end
  end.

(** [measurements] as chosen from the loaded [data]; [None] is the
    [continue] of the last branch. *)
Definition select_measurements (data : pyvalue) : option pyvalue :=
  match data with
  | PyList _ => Some data
  | PyDict d => Some (default (PyList [data]) (d !! "measurements"))
  | _ => None
  end.

Section Script.
Context {P : Platform}.

(** The body of [for fname in json_files]. *)
Definition load_member (zf : ZipFile) (fname : string) (rows : list MeasurementRecord)
  : list MeasurementRecord * option exn :=
  match zf_open zf fname with
  | Raise e => (rows, Some e)
  | Ok f =>
      match json_load f with
      | Raise e => (rows, Some e)
      | Ok data =>
          match select_measurements data with
          | None => (rows, None)
          | Some measurements =>
              match iterate measurements with
              | Ok ms => append_measurements ms rows
              | Raise e => (rows, Some e)
              end
          end
      end
  end.

(** [for fname in json_files: ...] *)
Fixpoint load_members (zf : ZipFile) (json_files : list string)
    (rows : list MeasurementRecord) : list MeasurementRecord * option exn :=
  match json_files with
  | [] => (rows, None)
  | fname :: json_files' =>
      match load_member zf fname rows with
      | (rows', None) => load_members zf json_files' rows'
      | (rows', Some e) => (rows', Some e)
      end
  end.

(** The two [except] clauses, then [return rows]; any other exception
    propagates. *)
Definition parse_handlers (artifact_name : pyvalue) (e : exn)
    (rows : list MeasurementRecord) : M (list MeasurementRecord) :=
  match e with
  | BadZipFile =>
      print stdout [Lit "  WARNING: Artifact '"; Fmt artifact_name;
                    Lit "' is not a valid zip file."];;
      mret rows
  | JSONDecodeError msg =>
      print stdout [Lit "  WARNING: JSON parse error in artifact '";
                    Fmt artifact_name; Lit "': "; Lit msg];;
      mret rows
  | _ => raise e
  end.

(** [[n for n in zf.namelist() if n.endswith(".json")]] *)
Definition json_members (zf : ZipFile) : list string :=
  List.filter (fun n => Str.endswith n ".json") (namelist zf).

(** The loop over [json_files] inside the [try], and what follows it. *)
Definition parse_members (zf : ZipFile) (json_files : list string)
    (artifact_name : pyvalue) (rows : list MeasurementRecord)
  : M (list MeasurementRecord) :=
  match load_members zf json_files rows with
  | (rows', None) => mret rows'
  | (rows', Some e) => parse_handlers artifact_name e rows'
  end.

Definition parse_eco_ci_json (raw_bytes : list byte) (artifact_name : pyvalue)
  : M (list MeasurementRecord) :=
  let rows := [] in
  match zipfile_ZipFile raw_bytes with
  | Raise e => parse_handlers artifact_name e rows
  | Ok zf =>
      let json_files := json_members zf in
      match json_files with
      | [] =>
          print stdout [Lit "  WARNING: No JSON files found in artifact '";
                        Fmt artifact_name; Lit "'"];;
          mret rows
      | _ => parse_members zf json_files artifact_name rows
      end
  end.

(** The headers [get_headers] returns. *)
Definition auth_headers : list (string * string) :=
  [ ("Authorization", "Bearer " +:+ env_str GITHUB_TOKEN);
    ("Accept", "application/vnd.github+json");
    ("X-GitHub-Api-Version", "2022-11-28") ].

Definition get_headers : M (list (string * string)) :=
  (if negb (env_truthy GITHUB_TOKEN) then
     print stderr [Lit "ERROR: GITHUB_TOKEN environment variable not set."];;
     sys_exit 1
   else mret tt);;
  (if negb (env_truthy GITHUB_REPO) then
     print stderr [Lit "ERROR: GITHUB_REPO environment variable not set."];;
     sys_exit 1
   else mret tt);;
  mret auth_headers.

(** [requests.get(...)]: the request is made, then the answer or the
    exception of the library comes back. *)
Definition http_get (req : request) : M response :=
  fun s =>
    match requests_get (trace s) req with
    | Ok resp => (Done resp, log s [EvGet req])
    | Raise e => (Raised e, log s [EvGet req])
    end.

(** [time.time()], in whole seconds: each reading is an event, so that two
    readings need not agree. *)
Definition now : M Z := fun s => (Done (time_time (trace s)), log s [EvTime]).

Definition sleep (seconds : Z) : M unit := emit (EvSleep seconds).

(** [resp.raise_for_status()] *)
Definition raise_for_status (resp : response) : M unit :=
  if (400 <=? status_code resp) && (status_code resp <? 600)
  then raise (HTTPError (status_code resp))
  else mret tt.

(** GET request with rate-limit handling, with room for [room] more nested
    calls.  The retry is a recursive call: where the stack has no room for
    it, the interpreter raises [RecursionError] in its place.  The default
    [time.time() + 60] is an argument of [headers.get], so the clock is read
    for it whether the header is there or not. *)
Fixpoint api_get_nested (room : nat) (url : list piece)
    (params : option (gmap string pyvalue)) {struct room} : M pyvalue :=
  headers ← get_headers;
  resp ← http_get {| req_url := url; req_headers := headers;
                     req_params := params; req_timeout := 30 |};
  if (status_code resp =? 429) || (status_code resp =? 403) then
    t0 ← now;
    reset ← lift (match ratelimit_reset resp with
                  | Some h => int_of_str h
                  | None => Ok (t0 + 60)
                  end);
    t ← now;
    let wait := Z.max (reset - t) 10 in
    print stdout [Lit "Rate-limited. Waiting "; Fmt (PyInt wait); Lit "s …"];;
    sleep wait;;
    match room with
    | O => raise RecursionError
    | S room' => api_get_nested room' url params
    end
  else
    raise_for_status resp;;
    lift (resp_json resp).

(** [api_get] as the script calls it: the first call, with the room the
    stack has at that moment. *)
Definition api_get (url : list piece) (params : option (gmap string pyvalue))
  : M pyvalue :=
  fun s => api_get_nested (stack_room (trace s)) url params s.

(** The [while True] loop of [paginate], which spends fuel. *)
Fixpoint paginate_loop (fuel : nat) (url : list piece) (key : string)
    (params : gmap string pyvalue) (results : list pyvalue) (page : Z)
  : M (list pyvalue) :=
  match fuel with
  | O => out_of_fuel
  | S fuel' =>
      let params := <["page" := PyInt page]> params in
      data ← api_get url (Some params);
      items ← lift (get data key (PyList []));
      extension ← lift (iterate items);
      let results := results ++ extension in
      if (length extension <? 100)%nat then mret results
      else paginate_loop fuel' url key params results (page + 1)
  end.

(** Fetch all pages from a paginated GitHub API endpoint. *)
Definition paginate (fuel : nat) (url : list piece) (key : string)
    (params : option (gmap string pyvalue)) : M (list pyvalue) :=
  let params := default ∅ params in
  let params := <["per_page" := PyInt 100]> params in
  paginate_loop fuel url key params [] 1.

(** Fetch all completed workflow runs for the repository. *)
Definition list_workflow_runs (fuel : nat) : M (list pyvalue) :=
  let url := [Lit "https://api.github.com/repos/"; Lit (env_str GITHUB_REPO);
              Lit "/actions/runs"] in
  runs ← paginate fuel url "workflow_runs" (Some {["status" := PyStr "completed"]});
  print stdout [Lit "Found "; Fmt (PyInt (Z.of_nat (length runs)));
                Lit " completed workflow runs."];;
  mret runs.

(** List artifacts for a specific workflow run. *)
Definition list_artifacts (run_id : pyvalue) : M pyvalue :=
  let url := [Lit "https://api.github.com/repos/"; Lit (env_str GITHUB_REPO);
              Lit "/actions/runs/"; Fmt run_id; Lit "/artifacts"] in
  data ← api_get url None;
  lift (get data "artifacts" (PyList [])).

(** Download artifact zip and return raw bytes. *)
Definition download_artifact (artifact : pyvalue) : M (option (list byte)) :=
  download_url ← lift (get artifact "archive_download_url" PyNone);
  if negb (truthy download_url) then mret None
  else
    headers ← get_headers;
    resp ← http_get {| req_url := [Fmt download_url]; req_headers := headers;
                       req_params := None; req_timeout := 60 |};
    if status_code resp =? 200 then mret (Some (content resp))
    else
      name ← lift (getitem artifact "name");
      print stdout [Lit "  WARNING: Could not download artifact "; Fmt name;
                    Lit " — HTTP "; Fmt (PyInt (status_code resp))];;
      mret None.

(** ["eco-ci" in a["name"].lower()] *)
Definition is_eco (a : pyvalue) : result bool :=
  name ← getitem a "name";
  match name with
  | PyStr n => Ok (Str.contains (str_lower n) "eco-ci")
  | _ => Raise AttributeError
  end.

(** [[a for a in artifacts if "eco-ci" in a["name"].lower()]] *)
Fixpoint filter_eco (artifacts : list pyvalue) : result (list pyvalue) :=
  match artifacts with
  | [] => Ok []
  | a :: artifacts' =>
      keep ← is_eco a;
      rest ← filter_eco artifacts';
      Ok (if keep : bool then a :: rest else rest)
  end.

(** The body of [for artifact in eco_artifacts]; [note_extracted] is ghost
    code. *)
Definition process_artifact (run run_id : pyvalue) (config : string)
    (workflow_name branch : pyvalue) (artifact : pyvalue) : M unit :=
  name ← lift (getitem artifact "name");
  print stdout [Lit "    Downloading: "; Fmt name];;
  raw ← download_artifact artifact;
  match raw with
  | None => mret tt
  | Some raw =>
      rows ← parse_eco_ci_json raw name;
      note_extracted run rows;;
      python_version ← lift (infer_python_version name);
      for_each rows (fun row =>
        append_row {| row_run_id := run_id;
                      row_config := config;
                      row_workflow := workflow_name;
                      row_branch := branch;
                      row_stage := stage row;
                      row_energy_joules := energy_joules row;
                      row_duration_seconds := duration_seconds row;
                      row_timestamp := timestamp row;
                      row_python_version := python_version |})
  end.

(** The body of [for run in runs]. *)
Definition process_run (run : pyvalue) : M unit :=
  run_id ← lift (getitem run "id");
  branch ← lift (get run "head_branch" (PyStr "unknown"));
  workflow_name ← lift (get run "name" (PyStr "unknown"));
  config ← lift (infer_config run);
  print stdout [Lit "  Run #"; Fmt run_id; Lit " | branch="; Fmt branch;
                Lit " | config="; Lit config; Lit " | workflow="; Fmt workflow_name];;
  artifacts ← list_artifacts run_id;
  artifacts ← lift (iterate artifacts);
  eco_artifacts ← lift (filter_eco artifacts);
  match eco_artifacts with
  | [] => print stdout [Lit "    No Eco-CI artifacts found for run #"; Fmt run_id]
  | _ => for_each eco_artifacts (process_artifact run run_id config workflow_name branch)
  end.

(** [main] up to the test [if not all_rows]. *)
Definition collect (fuel : nat) : M unit :=
  print stdout [Lit "Repository: "; Lit (env_str GITHUB_REPO)];;
  print stdout [Lit "Output: "; Lit OUTPUT_CSV; Lit nl];;
  runs ← list_workflow_runs fuel;
  clear_rows;;
  for_each runs process_run.

(** One operation on the output file: it is done, or it is refused with an
    exception and leaves the file as it was. *)
Definition file_op (e : event) : M unit :=
  fun s =>
    match file_error (trace s) e with
    | None => (Done tt, log s [e])
    | Some ex => (Raised ex, s)
    end.

(** [body], then [cleanup] however [body] ended; an exception of [cleanup]
    takes the place of that of [body]. *)
Definition finally (body cleanup : M unit) : M unit :=
  fun s =>
    match body s with
    | (Done _, s') => cleanup s'
    | (Raised e, s') =>
        match cleanup s' with
        | (Done _, s'') => (Raised e, s'')
        | failed => failed
        end
    | (OutOfFuel, s') => (OutOfFuel, s')
    end.

(** [with open(path, "w", ...) as f: body]: the file is closed however the
    body ends. *)
Definition with_open (path : string) (body : M unit) : M unit :=
  file_op (EvOpenWrite path);;
  finally body (file_op (EvClose path)).

(** [writer.writeheader()] *)
Definition writeheader (fieldnames : list string) : M unit :=
  file_op (EvWriteHeader fieldnames).

(** [writer.writerows(rows)]: one line after the other. *)
Definition writerows (rows : list OutputRow) : M unit :=
  for_each rows (fun row => file_op (EvWriteRow row)).

(** [main] from the test [if not all_rows] on. *)
Definition report : M unit :=
  rows ← get_rows;
  match rows with
  | [] =>
      print stdout [Lit nl; Lit "No data collected. Have the workflows been triggered yet?"];;
      sys_exit 0
  | _ =>
      with_open OUTPUT_CSV (writeheader CSV_COLUMNS;; writerows rows);;
      print stdout [Lit nl; Lit "✓ Wrote "; Fmt (PyInt (Z.of_nat (length rows)));
                    Lit " rows to "; Lit OUTPUT_CSV]
  end.

Definition main (fuel : nat) : M unit := collect fuel;; report.

(** The script run as a program: the module-level [mkdir] of the output
    directory, then [main]. *)
Definition program (fuel : nat) : outcome unit * state :=
  (emit (EvMkdir "results");; main fuel) init.

End Script.

(** ** Notions the properties are stated with *)

(** A parsed JSON value that is neither a sequence nor a mapping. *)
Definition scalar (v : pyvalue) : Prop :=
  (forall l, v <> PyList l) /\ (forall d, v <> PyDict d).

(** The measurement objects of a JSON payload: a bare sequence of objects, a
    mapping with a "measurements" sequence of objects, a single mapping taken
    as one measurement, or a scalar, which holds none. *)
Inductive payload_objects : pyvalue -> list (gmap string pyvalue) -> Prop :=
| payload_list (ds : list (gmap string pyvalue)) :
    payload_objects (PyList (map PyDict ds)) ds
| payload_wrapped (d : gmap string pyvalue) (ds : list (gmap string pyvalue)) :
    d !! "measurements" = Some (PyList (map PyDict ds)) ->
    payload_objects (PyDict d) ds
| payload_single (d : gmap string pyvalue) :
    d !! "measurements" = None ->
    payload_objects (PyDict d) [d]
| payload_scalar (v : pyvalue) :
    scalar v ->
    payload_objects v [].

(** The record of one measurement object, field by field. *)
Definition record_for (d : gmap string pyvalue) (r : MeasurementRecord) : Prop :=
  stage r = default (PyStr "unknown") (d !! "label") /\
  energy_joules r =
    match d !! "total_energy_J" with
    | Some total => total
    | None => match d !! "cpu_energy_J" with
              | Some cpu => cpu
              | None => PyFloat float_zero
              end
    end /\
  duration_seconds r = default (PyFloat float_zero) (d !! "duration") /\
  timestamp r = default (PyStr "") (d !! "time").

(** The row of one record extracted for [run]. *)
Definition row_from (row : OutputRow) (noted : pyvalue * MeasurementRecord) : Prop :=
  let (run, r) := noted in
  getitem run "id" = Ok (row_run_id row) /\
  get run "name" (PyStr "unknown") = Ok (row_workflow row) /\
  get run "head_branch" (PyStr "unknown") = Ok (row_branch row) /\
  row_stage row = stage r /\
  row_energy_joules row = energy_joules r /\
  row_duration_seconds row = duration_seconds r /\
  row_timestamp row = timestamp r.

(** An operation on the output file. *)
Definition file_write (e : event) : bool :=
  match e with
  | EvOpenWrite _ | EvWriteHeader _ | EvWriteRow _ | EvClose _ => true
  | _ => false
  end.

(** [s'] continues [s]: more events, all accepted by [ok], and nothing else. *)
Definition extends_by (ok : event -> bool) (s s' : state) : Prop :=
  exists evs, s' = log s evs /\ forallb ok evs = true.

(** Any event but a write to the output file. *)
Definition plain (e : event) : bool := negb (file_write e).

(** Any event. *)
Definition any (e : event) : bool := true.

(** [m] only adds events accepted by [ok], however it ends. *)
Definition emits {A : Type} (ok : event -> bool) (m : M A) : Prop :=
  forall s, extends_by ok s (snd (m s)).

(** From a state in [pre], [m] ends in a state in [post], however it ends. *)
Definition hoare {A : Type} (pre : state -> Prop) (m : M A) (post : state -> Prop) : Prop :=
  forall s, pre s -> post (snd (m s)).

(** [m'] does all that [m] does, where [m] does not run out of fuel. *)
Definition refines {A : Type} (m m' : M A) : Prop :=
  forall s, fst (m s) <> OutOfFuel -> m' s = m s.

(** Row by row, [all_rows] is what the extracted records give. *)
Definition rows_match (s : state) : Prop :=
  Forall2 row_from (all_rows s) (extracted s).

Definition nothing_written (s : state) : Prop :=
  Forall (fun e => file_write e = false) (trace s).

(** Before the first extraction. *)
Definition fresh (s : state) : Prop :=
  all_rows s = [] /\ extracted s = [] /\ nothing_written s.

(** While [main] collects. *)
Definition collecting (s : state) : Prop :=
  rows_match s /\ nothing_written s.

(** The branch name neither equals the key nor starts with it. *)
Definition no_match (b : string) (entry : string * string) : Prop :=
  b <> fst entry /\ forall r, b <> fst entry +:+ r.

(** The parameters [paginate] has before its loop sets "page". *)
Definition base_params (params : option (gmap string pyvalue)) : gmap string pyvalue :=
  <["per_page" := PyInt 100]> (default ∅ params).

Section Requests.
Context {P : Platform}.

(** The request [paginate] makes for page [i]. *)
Definition page_request (url : list piece) (params : option (gmap string pyvalue))
    (i : nat) : request :=
  {| req_url := url;
     req_headers := auth_headers;
     req_params := Some (<["page" := PyInt (Z.of_nat i)]> (base_params params));
     req_timeout := 30 |}.

(** A response that carries the items of one page under [key]. *)
Definition serves (resp : response) (key : string) (items : list pyvalue) : Prop :=
  status_code resp = 200 /\
  exists body, resp_json resp = Ok (PyDict body) /\ body !! key = Some (PyList items).

(** The member [fname] of [zf] is read and parsed, and holds the objects [ds]. *)
Definition member_objects (zf : ZipFile) (fname : string)
    (ds : list (gmap string pyvalue)) : Prop :=
  exists f data,
    zf_open zf fname = Ok f /\ json_load f = Ok data /\ payload_objects data ds.

End Requests.

(** ** A small world to run the script in *)

Module Demo.

Definition one : spec_float := S754_finite false 4503599627370496 (-52).
Definition two : spec_float := S754_finite false 4503599627370496 (-51).
Definition three : spec_float := S754_finite false 6755399441055744 (-51).

Definition object_a : gmap string pyvalue :=
  <["label" := PyStr "a"]>
    (<["total_energy_J" := PyFloat one]>
       (<["duration" := PyFloat two]>
          (<["time" := PyStr "t1"]> ∅))).

Definition object_b : gmap string pyvalue :=
  <["label" := PyStr "b"]> (<["cpu_energy_J" := PyFloat three]> ∅).

(** The bare list of two objects. *)
Definition payload : pyvalue := PyList [PyDict object_a; PyDict object_b].

Definition record_a : MeasurementRecord :=
  {| stage := PyStr "a"; energy_joules := PyFloat one;
     duration_seconds := PyFloat two; timestamp := PyStr "t1" |}.

Definition record_b : MeasurementRecord :=
  {| stage := PyStr "b"; energy_joules := PyFloat three;
     duration_seconds := PyFloat float_zero; timestamp := PyStr "" |}.

Definition good_bytes : list byte := [x7b].
Definition bad_bytes : list byte := [x3f].
Definition number_bytes : list byte := [x35].
Definition numbers_bytes : list byte := [x5b].
Definition latin_bytes : list byte := [xe9].

(** [latin_bytes] is no UTF-8 text: [json.load] fails to decode it before
    it parses anything. *)
Definition load (f : list byte) : result pyvalue :=
  match f with
  | [x7b] => Ok payload
  | [x35] => Ok (PyInt 5)
  | [x5b] => Ok (PyList [PyInt 5])
  | [xe9] => Raise (OtherError "UnicodeDecodeError")
  | _ => Raise (JSONDecodeError "Expecting value: line 1 column 1 (char 0)")
  end.

(** One JSON member holding the bare list, next to a text file. *)
Definition archive : ZipFile :=
  {| namelist := ["eco-ci-results.json"; "README.md"];
     zf_open := fun _ => Ok good_bytes |}.

(** A good member followed by one that is not JSON. *)
Definition half_broken : ZipFile :=
  {| namelist := ["a.json"; "b.json"];
     zf_open := fun n => if String.eqb n "a.json" then Ok good_bytes else Ok bad_bytes |}.

(** A member holding the number 5, then a good one. *)
Definition with_number : ZipFile :=
  {| namelist := ["n.json"; "a.json"];
     zf_open := fun n => if String.eqb n "n.json" then Ok number_bytes else Ok good_bytes |}.

(** A member holding a list of numbers, then one that is not JSON. *)
Definition numbers_then_broken : ZipFile :=
  {| namelist := ["m.json"; "b.json"];
     zf_open := fun n => if String.eqb n "m.json" then Ok numbers_bytes else Ok bad_bytes |}.

(** A good member followed by one that is not text. *)
Definition not_text : ZipFile :=
  {| namelist := ["a.json"; "l.json"];
     zf_open := fun n => if String.eqb n "a.json" then Ok good_bytes else Ok latin_bytes |}.

Definition open_zip (raw : list byte) : result ZipFile :=
  match raw with
  | [x01] => Ok archive
  | [x02] => Ok half_broken
  | [x03] => Ok with_number
  | [x04] => Ok numbers_then_broken
  | [x05] => Ok not_text
  | _ => Raise BadZipFile
  end.

Definition run7 : gmap string pyvalue :=
  <["id" := PyInt 7]>
    (<["head_branch" := PyStr "experiment/c2-pip-cache-v2"]>
       (<["name" := PyStr "Tests"]>
          (<["path" := PyStr ".github/workflows/tests.yml"]> ∅))).

Definition artifact_name : string := "eco-ci-results-tests-py3.11-ubuntu-latest".

Definition eco_artifact : gmap string pyvalue :=
  <["name" := PyStr artifact_name]>
    (<["archive_download_url" := PyStr "https://api.github.com/dl/1"]> ∅).

Definition no_url_artifact : gmap string pyvalue :=
  <["name" := PyStr "Eco-CI-summary"]> ∅.

Definition other_artifact : gmap string pyvalue :=
  <["name" := PyStr "coverage-report"]> ∅.

Definition json_response (body : gmap string pyvalue) : response :=
  {| status_code := 200; ratelimit_reset := None;
     resp_json := Ok (PyDict body); content := [] |}.

(** A listing served in two pages: a hundred items, then one. *)
Definition listing_url : list piece := [Lit "https://api.github.com/listing"].

Definition listing_page (i : nat) : list pyvalue :=
  match i with
  | 1%nat => repeat (PyInt 0) 100
  | _ => [PyInt 1]
  end.

Definition page_of (req : request) : nat :=
  match req_params req with
  | Some ps => match ps !! "page" with
               | Some (PyInt n) => Z.to_nat n
               | _ => O
               end
  | None => O
  end.

Definition server (tr : list event) (req : request) : result response :=
  match req_url req with
  | [Lit _] => Ok (json_response {["items" := PyList (listing_page (page_of req))]})
  | [Lit _; Lit _; Lit _] =>
      Ok (json_response {["workflow_runs" := PyList [PyDict run7]]})
  | [Lit _; Lit _; Lit _; Fmt _; Lit _] =>
      Ok (json_response {["artifacts" := PyList [PyDict eco_artifact;
                                                 PyDict other_artifact;
                                                 PyDict no_url_artifact]]})
  | [Fmt _] =>
      Ok {| status_code := 200; ratelimit_reset := None;
            resp_json := Raise (JSONDecodeError "Expecting value"); content := [x01] |}
  | _ => Raise (OtherError "ConnectionError")
  end.

(** A disk that takes everything. *)
Definition disk (tr : list event) (e : event) : option exn := None.

Definition platform (token repo : option string) : Platform :=
  {| GITHUB_TOKEN := token;
     GITHUB_REPO := repo;
     requests_get := server;
     time_time := fun _ => 1700000000;
     int_of_str := fun _ => Raise (OtherError "ValueError");
     zipfile_ZipFile := open_zip;
     json_load := load;
     str_lower := Str.ascii_lower;
     stack_room := fun _ => 990%nat;
     file_error := disk |}.

Definition github : Platform := platform (Some "ghp_token") (Some "jdoe/httpie-cli-carbon-study").



End Demo.

(** ** Notions for the paths beside the main one *)

(** The answer asks the caller to come back later. *)
Definition rate_limited (resp : response) : bool :=
  (status_code resp =? 429) || (status_code resp =? 403).

(** What [api_get] prints before it sleeps. *)
Definition rate_limit_notice (wait : Z) : event :=
  EvPrint stdout [Lit "Rate-limited. Waiting "; Fmt (PyInt wait); Lit "s …"].

(** The labels a run can get. *)
Definition config_label (l : string) : Prop :=
  In l ["C1"; "C2"; "C3"; "C4"; "unknown"].

(** A line printed to stdout that starts with the warning marker. *)
Definition warning_line (e : event) : Prop :=
  exists w rest, e = EvPrint stdout (Lit w :: rest) /\ Str.startswith w "  WARNING" = true.

(** An artifact as the listing gives it: a dict whose "name" is a string. *)
Definition artifact_named (a : pyvalue) (n : string) : Prop :=
  exists d, a = PyDict d /\ d !! "name" = Some (PyStr n).

(** An exception neither [except] clause of [parse_eco_ci_json] names. *)
Definition uncaught (e : exn) : Prop :=
  e <> BadZipFile /\ forall msg, e <> JSONDecodeError msg.

Section MoreRequests.
Context {P : Platform}.

(** The name, lowered, carries the Eco-CI marker. *)
Definition eco_marked (a : pyvalue) : bool :=
  match getitem a "name" with
  | Ok (PyStr n) => Str.contains (str_lower n) "eco-ci"
  | _ => false
  end.

(** The request of one [api_get] attempt. *)
Definition api_request (url : list piece) (params : option (gmap string pyvalue))
  : request :=
  {| req_url := url; req_headers := auth_headers;
     req_params := params; req_timeout := 30 |}.

(** The request of [download_artifact]. *)
Definition download_request (download_url : pyvalue) : request :=
  {| req_url := [Fmt download_url]; req_headers := auth_headers;
     req_params := None; req_timeout := 60 |}.

(** The URL [list_artifacts] asks. *)
Definition artifacts_url (run_id : pyvalue) : list piece :=
  [Lit "https://api.github.com/repos/"; Lit (env_str GITHUB_REPO);
   Lit "/actions/runs/"; Fmt run_id; Lit "/artifacts"].

(** The URL [list_workflow_runs] asks. *)
Definition runs_url : list piece :=
  [Lit "https://api.github.com/repos/"; Lit (env_str GITHUB_REPO);
   Lit "/actions/runs"].

End MoreRequests.

(** A row whose inferred columns are in range. *)
Definition row_labelled (r : OutputRow) : Prop :=
  config_label (row_config r) /\ Str.has_char "-" (row_python_version r) = false.

Definition rows_labelled (s : state) : Prop := Forall row_labelled (all_rows s).




(** The rows written to the output file so far, in order. *)
Definition written_rows (tr : list event) : list OutputRow :=
  omap (fun e => match e with EvWriteRow r => Some r | _ => None end) tr.

(** The exception raised by the first of the operations [ops] that the file
    system refuses, when they are made one after the other from the trace
    [tr]; [None] when it takes them all. *)
Section FileSystem.
Context {P : Platform}.


End FileSystem.

(** ** More worlds to run the script in *)

Module Scenario.

Definition to_int (h : string) : result Z :=
  if String.eqb h "1700000030" then Ok 1700000030 else Raise (OtherError "ValueError").

(** A clock that advances by a second with every event. *)
Definition ticking (tr : list event) : Z := 1700000000 + Z.of_nat (length tr).

Definition world (token repo : option string)
    (server : list event -> request -> result response)
    (open_zip : list byte -> result ZipFile) : Platform :=
  {| GITHUB_TOKEN := token;
     GITHUB_REPO := repo;
     requests_get := server;
     time_time := ticking;
     int_of_str := to_int;
     zipfile_ZipFile := open_zip;
     json_load := Demo.load;
     str_lower := Str.ascii_lower;
     stack_room := fun _ => 2%nat;
     file_error := Demo.disk |}.

Definition answer (status : Z) (reset : option string) (body : gmap string pyvalue)
  : response :=
  {| status_code := status; ratelimit_reset := reset;
     resp_json := Ok (PyDict body); content := [] |}.

Definition slept (tr : list event) : bool :=
  existsb (fun e => match e with EvSleep _ => true | _ => false end) tr.

(** Rate-limited until the caller has slept once. *)
Definition limited_once (tr : list event) (req : request) : result response :=
  if slept tr then Ok (answer 200 None {["items" := PyList [PyInt 1]]})
  else Ok (answer 429 (Some "1700000030") ∅).


(** A reset header that is no number. *)
Definition limited_badly (tr : list event) (req : request) : result response :=
  Ok (answer 429 (Some "soon") ∅).

(** Out of order. *)
Definition failing (tr : list event) (req : request) : result response :=
  Ok (answer 500 None ∅).

(** Every page is full. *)
Definition full_page : list pyvalue := repeat (PyInt 0) 100.

Definition endless (tr : list event) (req : request) : result response :=
  Ok (answer 200 None {["items" := PyList full_page]}).

(** One full page, then the error. *)
Definition failing_later (tr : list event) (req : request) : result response :=
  match Demo.page_of req with
  | 1%nat => Ok (answer 200 None {["items" := PyList full_page]})
  | _ => Ok (answer 500 None ∅)
  end.

(** Artifacts without the marker; downloads are not found. *)
Definition unmarked (tr : list event) (req : request) : result response :=
  match req_url req with
  | [Fmt _] => Ok (answer 404 None ∅)
  | _ => Ok (answer 200 None {["artifacts" := PyList [PyDict Demo.other_artifact]]})
  end.

(** The network is down. *)
Definition unreachable (tr : list event) (req : request) : result response :=
  Raise (OtherError "ConnectionError").

Definition github (server : list event -> request -> result response) : Platform :=
  world (Some "ghp_token") (Some "jdoe/httpie-cli-carbon-study") server Demo.open_zip.

(** A good member, then one that cannot be read out of the archive. *)
Definition damaged : ZipFile :=
  {| namelist := ["a.json"; "c.json"];
     zf_open := fun n => if String.eqb n "a.json" then Ok Demo.good_bytes
                         else Raise BadZipFile |}.

(** A good member, then one whose text cannot be decoded. *)
Definition undecodable : ZipFile :=
  {| namelist := ["a.json"; "u.json"];
     zf_open := fun n => if String.eqb n "a.json" then Ok Demo.good_bytes
                         else Raise (OtherError "UnicodeDecodeError") |}.

(** Only a text file. *)
Definition no_json : ZipFile :=
  {| namelist := ["README.md"]; zf_open := fun _ => Ok Demo.good_bytes |}.

Definition open_zip (raw : list byte) : result ZipFile :=
  match raw with
  | [x01] => Ok damaged
  | [x02] => Ok undecodable
  | [x03] => Ok no_json
  | _ => Raise BadZipFile
  end.

Definition archives : Platform :=
  world (Some "ghp_token") (Some "jdoe/httpie-cli-carbon-study") Demo.server open_zip.

Definition null_url_artifact : gmap string pyvalue :=
  <["name" := PyStr "eco-ci-empty"]> (<["archive_download_url" := PyNone]> ∅).

Definition nameless_artifact : gmap string pyvalue :=
  <["archive_download_url" := PyStr "https://api.github.com/dl/2"]> ∅.

(** U+D800, a lone surrogate, as [json.load] gives it for the escape
    \ud800: text that UTF-8 cannot encode. *)
Definition lone_surrogate : string :=
  String (ascii_of_nat 237) (String (ascii_of_nat 160) (String (ascii_of_nat 128) "")).

Definition object_s : gmap string pyvalue :=
  <["label" := PyStr lone_surrogate]> ∅.

(** A disk that takes what UTF-8 can encode. *)
Definition utf8_disk (tr : list event) (e : event) : option exn :=
  match e with
  | EvWriteRow {| row_stage := PyStr l |} =>
      if String.eqb l lone_surrogate then Some (OtherError "UnicodeEncodeError") else None
  | _ => None
  end.

(** [Demo.github], where the second measurement is labelled with the
    surrogate. *)
Definition surrogates : Platform :=
  {| GITHUB_TOKEN := Some "ghp_token";
     GITHUB_REPO := Some "jdoe/httpie-cli-carbon-study";
     requests_get := Demo.server;
     time_time := ticking;
     int_of_str := to_int;
     zipfile_ZipFile := Demo.open_zip;
     json_load := fun _ => Ok (PyList [PyDict Demo.object_a; PyDict object_s]);
     str_lower := Str.ascii_lower;
     stack_room := fun _ => 2%nat;
     file_error := utf8_disk |}.


Definition detached_run : gmap string pyvalue :=
  <["id" := PyInt 8]> (<["head_branch" := PyNone]> (<["path" := PyStr "tests.yml"]> ∅)).

Definition run_without_id : gmap string pyvalue :=
  <["head_branch" := PyStr "main"]> ∅.

Definition upper_artifact : gmap string pyvalue :=
  <["name" := PyStr "Results-ECO-CI-py3.12"]> ∅.

End Scenario.

(** * Properties *)

(** ** Strings *)

Module StrFacts.
Import Str.

Lemma startswith_app (p r : string) : startswith (p +:+ r) p = true.
Proof.
  unfold startswith. induction p as [|c p IH]; simpl.
  - destruct r; reflexivity.
  - destruct (Ascii.ascii_dec c c); [exact IH | congruence].
Qed.

Lemma startswith_inv (s p : string) :
  startswith s p = true -> exists r, s = p +:+ r.
Proof.
  unfold startswith. revert s. induction p as [|c p IH]; intros s H.
  - exists s. reflexivity.
  - destruct s as [|c' s]; simpl in H; [discriminate|].
    destruct (Ascii.ascii_dec c c') as [->|]; [|discriminate].
    destruct (IH _ H) as [r ->]. exists r. reflexivity.
Qed.

Lemma startswith_false (s p : string) :
  (forall r, s <> p +:+ r) -> startswith s p = false.
Proof.
  intros H. destruct (startswith s p) eqn:E; [|reflexivity].
  destruct (startswith_inv _ _ E) as [r ->]. destruct (H r). reflexivity.
Qed.

Lemma slice_from_app (p r : string) : slice_from (String.length p) (p +:+ r) = r.
Proof. induction p as [|c p IH]; simpl; [destruct r; reflexivity | exact IH]. Qed.

Lemma split_no_sep (t : string) (sep : ascii) :
  has_char sep t = false -> split t sep = [t].
Proof.
  induction t as [|c t IH]; simpl; intros H; [reflexivity|].
  apply orb_false_iff in H as [-> H]. rewrite (IH H). reflexivity.
Qed.

Lemma split_app_sep (t rest : string) (sep : ascii) :
  has_char sep t = false ->
  split (t +:+ String sep rest) sep = t :: split rest sep.
Proof.
  induction t as [|c t IH]; simpl; intros H.
  - rewrite Ascii.eqb_refl. reflexivity.
  - apply orb_false_iff in H as [-> H]. rewrite (IH H). reflexivity.
Qed.

(** Splitting undoes joining: the tokens of a name are the pieces between
    consecutive separators. *)
Lemma split_join (sep : ascii) (parts : list string) :
  parts <> [] ->
  Forall (fun t => has_char sep t = false) parts ->
  split (join sep parts) sep = parts.
Proof.
  induction parts as [|t ts IH]; intros Hne Hall; [congruence|].
  inversion Hall as [|? ? Ht Hts]; subst.
  destruct ts as [|t' ts].
  - simpl. apply split_no_sep; assumption.
  - change (join sep (t :: t' :: ts)) with (t +:+ String sep (join sep (t' :: ts))).
    rewrite split_app_sep by assumption.
    rewrite IH; [reflexivity | discriminate | assumption].
Qed.

(** Every string is the join of its tokens, and no token holds the
    separator: the hypotheses on tokens below exclude no name. *)
Lemma join_split (sep : ascii) (s : string) :
  join sep (split s sep) = s /\
  Forall (fun t => has_char sep t = false) (split s sep) /\
  split s sep <> [].
Proof.
  induction s as [|c s (IHj & IHf & IHn)]; simpl.
  - repeat split; [repeat constructor | discriminate].
  - destruct (Ascii.eqb c sep) eqn:E.
    + apply Ascii.eqb_eq in E as ->.
      destruct (split s sep) as [|t ts] eqn:Es; [congruence|].
      repeat split; [simpl in *; rewrite IHj; reflexivity | | discriminate].
      constructor; [reflexivity | assumption].
    + destruct (split s sep) as [|t ts] eqn:Es; [congruence|].
      repeat split; [| | discriminate].
      * destruct ts; simpl in *; rewrite <- IHj; reflexivity.
      * inversion IHf; subst. constructor; [simpl; rewrite E; assumption | assumption].
Qed.

End StrFacts.

(** ** Runtime-version inference *)

Lemma first_py_cons (t : string) (ts : list string) :
  first_py (t :: ts) =
  if Str.startswith t "py" then Str.slice_from 2 t else first_py ts.
Proof. reflexivity. Qed.

Lemma first_py_found (before after : list string) (rest : string) :
  Forall (fun t => forall r, t <> "py" +:+ r) before ->
  first_py (before ++ ("py" +:+ rest) :: after) = rest.
Proof.
  induction 1 as [|t before Ht _ IH].
  - rewrite app_nil_l, first_py_cons, StrFacts.startswith_app.
    exact (StrFacts.slice_from_app "py" rest).
  - rewrite <- app_comm_cons, first_py_cons.
    rewrite (StrFacts.startswith_false _ _ Ht). exact IH.
Qed.

Lemma first_py_none (parts : list string) :
  Forall (fun t => forall r, t <> "py" +:+ r) parts ->
  first_py parts = "".
Proof.
  induction 1 as [|t parts Ht _ IH]; [reflexivity|].
  rewrite first_py_cons, (StrFacts.startswith_false _ _ Ht). exact IH.
Qed.

(** C7.  The name is split on "-"; the result is the first token that begins
    with "py", without that prefix, and the empty string when no token
    begins with "py".  The tokens of a name are the dash-free pieces it is
    the join of (see [StrFacts.join_split]).  The artifact named
    "eco-ci-results-tests-py3.11-ubuntu-latest" infers "3.11". *)
Theorem infer_python_version_first_py_token (name : string) (parts : list string) :
  parts <> [] ->
  Forall (fun t => Str.has_char "-" t = false) parts ->
  name = Str.join "-" parts ->
  (forall before rest after,
      parts = before ++ ("py" +:+ rest) :: after ->
      Forall (fun t => forall r, t <> "py" +:+ r) before ->
      infer_python_version (PyStr name) = Ok rest) /\
  (Forall (fun t => forall r, t <> "py" +:+ r) parts ->
   infer_python_version (PyStr name) = Ok "") /\
  infer_python_version (PyStr "eco-ci-results-tests-py3.11-ubuntu-latest") = Ok "3.11".
Proof.
  intros Hne Hdash ->. unfold infer_python_version.
  rewrite StrFacts.split_join by assumption.
  split; [|split].
  - intros before rest after -> Hbefore. f_equal. apply first_py_found, Hbefore.
  - intros Hnone. f_equal. apply first_py_none, Hnone.
  - reflexivity.
Qed.

Lemma infer_python_version_first_py_token_witness :
  infer_python_version (PyStr "eco-ci-results-tests-py3.11-ubuntu-latest") = Ok "3.11".
Proof.
  refine (proj1 (infer_python_version_first_py_token
                   "eco-ci-results-tests-py3.11-ubuntu-latest"
                   ["eco"; "ci"; "results"; "tests"; "py3.11"; "ubuntu"; "latest"]
                   _ _ _)
                ["eco"; "ci"; "results"; "tests"] "3.11" ["ubuntu"; "latest"] _ _).
  - discriminate.
  - repeat constructor.
  - reflexivity.
  - reflexivity.
  - repeat constructor; intros r; discriminate.
Defined.

(** ** Configuration inference *)

Lemma match_branch_cons (b prefix label : string) (items : list (string * string)) :
  match_branch (PyStr b) ((prefix, label) :: items) =
  if String.eqb b prefix || Str.startswith b prefix then Ok (Some label)
  else match_branch (PyStr b) items.
Proof. reflexivity. Qed.


Lemma match_branch_none (b : string) (items : list (string * string)) :
  Forall (no_match b) items ->
  match_branch (PyStr b) items = Ok None.
Proof.
  induction 1 as [|[k l] items [Hne Hpre] _ IH]; [reflexivity|].
  rewrite match_branch_cons.
  apply String.eqb_neq in Hne. simpl in Hne, Hpre. rewrite Hne.
  rewrite (StrFacts.startswith_false _ _ Hpre). exact IH.
Qed.




(** ** Measurement extraction *)

Section Extraction.
Context {P : Platform}.

Lemma measurement_row_dict (d : gmap string pyvalue) :
  exists r, measurement_row (PyDict d) = Ok r /\ record_for d r.
Proof.
  eexists. split; [reflexivity|].
  unfold record_for; cbn. repeat split.
Qed.

Lemma append_measurements_objects (ds : list (gmap string pyvalue))
    (rows : list MeasurementRecord) :
  exists rs, append_measurements (map PyDict ds) rows = (rows ++ rs, None) /\
             Forall2 record_for ds rs.
Proof.
  revert rows. induction ds as [|d ds IH]; intros rows.
  - exists []. rewrite app_nil_r. split; [reflexivity | constructor].
  - destruct (measurement_row_dict d) as (r & Hr & Hrec).
    destruct (IH (rows ++ [r])) as (rs & Hrs & Hall).
    exists (r :: rs). split; [|constructor; assumption].
    cbn [map append_measurements]. rewrite Hr, Hrs, <- app_assoc. reflexivity.
Qed.

Lemma select_measurements_scalar (v : pyvalue) :
  scalar v -> select_measurements v = None.
Proof.
  intros [Hl Hd]. destruct v; try reflexivity.
  - destruct (Hl l). reflexivity.
  - destruct (Hd d). reflexivity.
Qed.

Lemma load_member_objects (zf : ZipFile) (fname : string)
    (ds : list (gmap string pyvalue)) (rows : list MeasurementRecord) :
  member_objects zf fname ds ->
  exists rs, load_member zf fname rows = (rows ++ rs, None) /\ Forall2 record_for ds rs.
Proof.
  intros (f & data & Hf & Hdata & Hpay). unfold load_member. rewrite Hf, Hdata.
  destruct Hpay as [ds | d ds Hm | d Hm | v Hv].
  - apply append_measurements_objects.
  - cbn [select_measurements]. rewrite Hm. apply append_measurements_objects.
  - cbn [select_measurements]. rewrite Hm.
    apply (append_measurements_objects [d]).
  - rewrite (select_measurements_scalar _ Hv). exists [].
    rewrite app_nil_r. split; [reflexivity | constructor].
Qed.

Lemma load_members_objects (zf : ZipFile) (json_files : list string)
    (dss : list (list (gmap string pyvalue))) (rows : list MeasurementRecord) :
  Forall2 (member_objects zf) json_files dss ->
  exists rs, load_members zf json_files rows = (rows ++ rs, None) /\
             Forall2 record_for (concat dss) rs.
Proof.
  intros H. revert rows. induction H as [|fname ds json_files dss Hm _ IH]; intros rows.
  - exists []. rewrite app_nil_r. split; [reflexivity | constructor].
  - destruct (load_member_objects zf fname ds rows Hm) as (rs1 & H1 & Hall1).
    destruct (IH (rows ++ rs1)) as (rs2 & H2 & Hall2).
    exists (rs1 ++ rs2). cbn [load_members concat]. rewrite H1, H2, <- app_assoc.
    split; [reflexivity | apply Forall2_app; assumption].
Qed.

Lemma load_members_app (zf : ZipFile) (l1 l2 : list string)
    (rows : list MeasurementRecord) :
  load_members zf (l1 ++ l2) rows =
  match load_members zf l1 rows with
  | (rows', None) => load_members zf l2 rows'
  | (rows', Some e) => (rows', Some e)
  end.
Proof.
  revert rows. induction l1 as [|fname l1 IH]; intros rows; [reflexivity|].
  cbn [app load_members]. destruct (load_member zf fname rows) as [rows' [e|]].
  - reflexivity.
  - apply IH.
Qed.

(** C1.  For a valid archive whose JSON members are read and parsed and
    hold the measurement objects [dss], member by member, extraction returns
    one record per object, in order, so as many records as there are
    objects; the record of an object has its "label" or "unknown" as stage,
    its "total_energy_J", else its "cpu_energy_J", else 0.0 as energy, its
    "duration" or 0.0, and its "time" or the empty string.  The bare list of
    two objects yields the records (a, 1.0, 2.0, t1) and (b, 3.0, 0.0, ""). *)
Theorem parse_eco_ci_json_records (raw : list byte) (artifact_name : pyvalue)
    (zf : ZipFile) (dss : list (list (gmap string pyvalue))) (s : state) :
  zipfile_ZipFile raw = Ok zf ->
  Forall2 (member_objects zf) (json_members zf) dss ->
  (exists rows s',
      parse_eco_ci_json raw artifact_name s = (Done rows, s') /\
      length rows = length (concat dss) /\
      Forall2 record_for (concat dss) rows /\
      (json_members zf <> [] -> s' = s) /\
      (json_members zf = [] ->
       s' = log s [EvPrint stdout [Lit "  WARNING: No JSON files found in artifact '";
                                   Fmt artifact_name; Lit "'"]])) /\
  (forall fname f,
      json_members zf = [fname] ->
      zf_open zf fname = Ok f ->
      json_load f = Ok Demo.payload ->
      parse_eco_ci_json raw artifact_name s = (Done [Demo.record_a; Demo.record_b], s)).
Proof.
  intros Hzf Hobjs. unfold parse_eco_ci_json. rewrite Hzf. split.
  - destruct (load_members_objects zf _ dss [] Hobjs) as (rs & Hrs & Hall).
    destruct (json_members zf) as [|fname files] eqn:Hfiles.
    + inversion Hobjs; subst. eexists [], _.
      split; [reflexivity|]. repeat split; [constructor | congruence].
    + exists rs, s. unfold parse_members. rewrite Hrs.
      split; [reflexivity|]. split; [symmetry; eapply Forall2_length; eassumption|].
      split; [assumption|]. split; [reflexivity | discriminate].
  - intros fname f Hfiles Hf Hload. rewrite Hfiles.
    unfold parse_members, load_members, load_member. rewrite Hf, Hload. reflexivity.
Qed.

Lemma parse_stops_at_member (raw : list byte) (artifact_name : pyvalue)
    (zf : ZipFile) (before after : list string) (fname : string)
    (msg : string) (e : exn) (rows : list MeasurementRecord) (s : state) :
  zipfile_ZipFile raw = Ok zf ->
  json_members zf = before ++ fname :: after ->
  load_members zf before [] = (rows, None) ->
  load_member zf fname rows = (rows, Some e) ->
  parse_eco_ci_json raw artifact_name s = parse_handlers artifact_name e rows s.
Proof.
  intros Hzf Hfiles Hbefore Hf. unfold parse_eco_ci_json. rewrite Hzf, Hfiles.
  destruct (before ++ fname :: after) eqn:E; [destruct before; discriminate|].
  rewrite <- E. unfold parse_members.
  rewrite load_members_app, Hbefore. cbn [load_members]. rewrite Hf. reflexivity.
Qed.

(** C2, as the script has it.  Bytes that [zipfile] rejects with
    [BadZipFile] give a warning and the empty list.  In a valid archive, a
    JSON member that [json.load] rejects with [JSONDecodeError], after
    members that are read and parsed and hold the measurement objects [dss],
    gives a warning and the records of those earlier members: the empty list
    only when they hold no object.  No exception leaves the function in
    either of these two cases. *)
Theorem parse_eco_ci_json_malformed (raw : list byte) (artifact_name : pyvalue)
    (s : state) :
  (zipfile_ZipFile raw = Raise BadZipFile ->
   parse_eco_ci_json raw artifact_name s =
     (Done [],
      log s [EvPrint stdout [Lit "  WARNING: Artifact '"; Fmt artifact_name;
                             Lit "' is not a valid zip file."]])) /\
  (forall zf before fname after f msg dss,
      zipfile_ZipFile raw = Ok zf ->
      json_members zf = before ++ fname :: after ->
      Forall2 (member_objects zf) before dss ->
      zf_open zf fname = Ok f ->
      json_load f = Raise (JSONDecodeError msg) ->
      exists rows,
        parse_eco_ci_json raw artifact_name s =
          (Done rows,
           log s [EvPrint stdout [Lit "  WARNING: JSON parse error in artifact '";
                                  Fmt artifact_name; Lit "': "; Lit msg]]) /\
        length rows = length (concat dss) /\
        Forall2 record_for (concat dss) rows).
Proof.
  split.
  - intros Hzf. unfold parse_eco_ci_json. rewrite Hzf. reflexivity.
  - intros zf before fname after f msg dss Hzf Hfiles Hbefore Hf Hload.
    destruct (load_members_objects zf before dss [] Hbefore) as (rows & Hrows & Hall).
    exists rows. split; [|split; [symmetry; eapply Forall2_length; eassumption | assumption]].
    rewrite (parse_stops_at_member raw artifact_name zf before after
               fname msg (JSONDecodeError msg) rows s Hzf Hfiles Hrows).
    + reflexivity.
    + unfold load_member. rewrite Hf, Hload. reflexivity.
Qed.

(** C9.  A JSON member whose parsed value is neither a list nor a dict adds
    no record and ends no loop: the archive is processed as if the member
    were not among its JSON members, with the same records and the same
    output, so without a warning for it; alone in its archive it gives the
    empty list and prints nothing. *)
Theorem scalar_member_skipped (zf : ZipFile) (fname : string) (f : list byte)
    (data : pyvalue) :
  zf_open zf fname = Ok f ->
  json_load f = Ok data ->
  scalar data ->
  (forall rows, load_member zf fname rows = (rows, None)) /\
  (forall before after artifact_name rows s,
      parse_members zf (before ++ fname :: after) artifact_name rows s =
      parse_members zf (before ++ after) artifact_name rows s) /\
  (forall raw artifact_name s before after,
      zipfile_ZipFile raw = Ok zf ->
      json_members zf = before ++ fname :: after ->
      parse_eco_ci_json raw artifact_name s =
      parse_members zf (before ++ after) artifact_name [] s) /\
  (forall raw artifact_name s,
      zipfile_ZipFile raw = Ok zf ->
      json_members zf = [fname] ->
      parse_eco_ci_json raw artifact_name s = (Done [], s)).
Proof.
  intros Hf Hload Hscalar.
  assert (Hmember : forall rows, load_member zf fname rows = (rows, None)).
  { intros rows. unfold load_member.
    rewrite Hf, Hload, (select_measurements_scalar _ Hscalar). reflexivity. }
  assert (Hskip : forall before after artifact_name rows s,
             parse_members zf (before ++ fname :: after) artifact_name rows s =
             parse_members zf (before ++ after) artifact_name rows s).
  { intros before after artifact_name rows s. unfold parse_members.
    rewrite !load_members_app. destruct (load_members zf before rows) as [rows' [e|]].
    - reflexivity.
    - cbn [load_members]. rewrite Hmember. reflexivity. }
  split; [exact Hmember|]. split; [exact Hskip|]. split.
  - intros raw artifact_name s before after Hzf Hfiles.
    unfold parse_eco_ci_json. rewrite Hzf, Hfiles.
    destruct (before ++ fname :: after) eqn:E; [destruct before; discriminate|].
    rewrite <- E. apply Hskip.
  - intros raw artifact_name s Hzf Hfiles.
    unfold parse_eco_ci_json. rewrite Hzf, Hfiles.
    unfold parse_members. cbn [load_members]. rewrite Hmember. reflexivity.
Qed.

End Extraction.

Lemma parse_eco_ci_json_records_witness :
  exists rows s',
    @parse_eco_ci_json Demo.github [x01] (PyStr Demo.artifact_name) init = (Done rows, s') /\
    length rows = 2%nat.
Proof.
  assert (Hobjs : Forall2 (@member_objects Demo.github Demo.archive)
                     (json_members Demo.archive) [[Demo.object_a; Demo.object_b]]).
  { repeat constructor. exists Demo.good_bytes, Demo.payload.
    repeat split. apply (payload_list [Demo.object_a; Demo.object_b]). }
  destruct (proj1 (@parse_eco_ci_json_records Demo.github [x01] (PyStr Demo.artifact_name)
                     Demo.archive [[Demo.object_a; Demo.object_b]] init eq_refl Hobjs))
    as (rows & s' & Hrun & Hlen & _).
  exists rows, s'. split; [exact Hrun | exact Hlen].
Defined.

(** C2 as stated fails: the second JSON member of [Demo.half_broken] does not
    parse, and extraction returns the two records of the first.  In
    [Demo.numbers_then_broken], whose second member does not parse either,
    the first holds a number where a measurement object should be:
    extraction raises AttributeError, which no clause catches.  And the
    second member of [Demo.not_text] fails to parse because it is no UTF-8
    text: [json.load] raises UnicodeDecodeError, which no clause catches
    either. *)
Lemma parse_eco_ci_json_keeps_earlier_records :
  (@zipfile_ZipFile Demo.github [x02] = Ok Demo.half_broken /\
   json_members Demo.half_broken = ["a.json"; "b.json"] /\
   (exists f msg, zf_open Demo.half_broken "b.json" = Ok f /\
                  @json_load Demo.github f = Raise (JSONDecodeError msg)) /\
   fst (@parse_eco_ci_json Demo.github [x02] (PyStr Demo.artifact_name) init)
     = Done [Demo.record_a; Demo.record_b] /\
   fst (@parse_eco_ci_json Demo.github [x02] (PyStr Demo.artifact_name) init)
     <> Done []) /\
  (@zipfile_ZipFile Demo.github [x04] = Ok Demo.numbers_then_broken /\
   json_members Demo.numbers_then_broken = ["m.json"; "b.json"] /\
   (exists f msg, zf_open Demo.numbers_then_broken "b.json" = Ok f /\
                  @json_load Demo.github f = Raise (JSONDecodeError msg)) /\
   @parse_eco_ci_json Demo.github [x04] (PyStr Demo.artifact_name) init
     = (Raised AttributeError, init)) /\
  (@zipfile_ZipFile Demo.github [x05] = Ok Demo.not_text /\
   json_members Demo.not_text = ["a.json"; "l.json"] /\
   (exists f, zf_open Demo.not_text "l.json" = Ok f /\
              @json_load Demo.github f = Raise (OtherError "UnicodeDecodeError")) /\
   @parse_eco_ci_json Demo.github [x05] (PyStr Demo.artifact_name) init
     = (Raised (OtherError "UnicodeDecodeError"), init)).
Proof.
  split; [|split].
  - split; [reflexivity|]. split; [reflexivity|]. split.
    + exists Demo.bad_bytes. eexists. split; reflexivity.
    + split; [reflexivity | discriminate].
  - split; [reflexivity|]. split; [reflexivity|]. split.
    + exists Demo.bad_bytes. eexists. split; reflexivity.
    + reflexivity.
  - split; [reflexivity|]. split; [reflexivity|]. split.
    + exists Demo.latin_bytes. split; reflexivity.
    + reflexivity.
Qed.

Lemma parse_eco_ci_json_malformed_witness :
  exists rows s',
    @parse_eco_ci_json Demo.github [x02] (PyStr Demo.artifact_name) init = (Done rows, s') /\
    length rows = 2%nat.
Proof.
  assert (Hobjs : Forall2 (@member_objects Demo.github Demo.half_broken)
                     ["a.json"] [[Demo.object_a; Demo.object_b]]).
  { repeat constructor. exists Demo.good_bytes, Demo.payload.
    repeat split. apply (payload_list [Demo.object_a; Demo.object_b]). }
  destruct (proj2 (@parse_eco_ci_json_malformed Demo.github [x02] (PyStr Demo.artifact_name) init)
              Demo.half_broken ["a.json"] "b.json" [] Demo.bad_bytes
              "Expecting value: line 1 column 1 (char 0)"
              [[Demo.object_a; Demo.object_b]] eq_refl eq_refl Hobjs eq_refl eq_refl)
    as (rows & Hrun & Hlen & _).
  exists rows. eexists. split; [exact Hrun | exact Hlen].
Defined.

Lemma scalar_member_skipped_witness :
  @parse_eco_ci_json Demo.github [x03] (PyStr Demo.artifact_name) init =
  @parse_members Demo.github Demo.with_number ["a.json"] (PyStr Demo.artifact_name) [] init.
Proof.
  refine (proj1 (proj2 (proj2 (@scalar_member_skipped Demo.github Demo.with_number "n.json"
                   Demo.number_bytes (PyInt 5) eq_refl eq_refl _)))
                [x03] (PyStr Demo.artifact_name) init [] ["a.json"] eq_refl eq_refl).
  split; intros; discriminate.
Defined.

(** ** Running the monad *)

Lemma bind_done {A B : Type} (m : M A) (f : A -> M B) (s s' : state) (a : A) :
  m s = (Done a, s') -> (m ≫= f) s = f a s'.
Proof. intros H. unfold mbind, M_bind, bind. rewrite H. reflexivity. Qed.

Lemma bind_raised {A B : Type} (m : M A) (f : A -> M B) (s s' : state) (e : exn) :
  m s = (Raised e, s') -> (m ≫= f) s = (Raised e, s').
Proof. intros H. unfold mbind, M_bind, bind. rewrite H. reflexivity. Qed.

Lemma bind_out_of_fuel {A B : Type} (m : M A) (f : A -> M B) (s s' : state) :
  m s = (OutOfFuel, s') -> (m ≫= f) s = (OutOfFuel, s').
Proof. intros H. unfold mbind, M_bind, bind. rewrite H. reflexivity. Qed.

Lemma log_nil (s : state) : log s [] = s.
Proof. unfold log. rewrite app_nil_r. destruct s; reflexivity. Qed.

Lemma log_log (s : state) (evs1 evs2 : list event) :
  log (log s evs1) evs2 = log s (evs1 ++ evs2).
Proof. unfold log. cbn [trace all_rows extracted]. rewrite app_assoc. reflexivity. Qed.

Lemma for_each_append_row {A : Type} (rows : list A) (f : A -> OutputRow) (s : state) :
  for_each rows (fun row => append_row (f row)) s =
  (Done tt, {| trace := trace s; all_rows := all_rows s ++ map f rows;
               extracted := extracted s |}).
Proof.
  revert s. induction rows as [|row rows IH]; intros s.
  - cbn. rewrite app_nil_r. destruct s; reflexivity.
  - cbn [for_each map]. erewrite bind_done by reflexivity.
    rewrite IH. cbn. rewrite <- app_assoc. reflexivity.
Qed.

Section Headers.
Context {P : Platform}.

Lemma get_headers_ready (s : state) :
  env_truthy GITHUB_TOKEN = true ->
  env_truthy GITHUB_REPO = true ->
  get_headers s = (Done auth_headers, s).
Proof.
  intros Ht Hr. unfold get_headers. rewrite Ht, Hr. reflexivity.
Qed.

(** The body of [api_get], whatever room the stack has. *)
Lemma api_get_nested_eq (room : nat) (url : list piece)
    (params : option (gmap string pyvalue)) :
  api_get_nested room url params =
  (headers ← get_headers;
   resp ← http_get {| req_url := url; req_headers := headers;
                      req_params := params; req_timeout := 30 |};
   if (status_code resp =? 429) || (status_code resp =? 403) then
     t0 ← now;
     reset ← lift (match ratelimit_reset resp with
                   | Some h => int_of_str h
                   | None => Ok (t0 + 60)
                   end);
     t ← now;
     let wait := Z.max (reset - t) 10 in
     print stdout [Lit "Rate-limited. Waiting "; Fmt (PyInt wait); Lit "s …"];;
     sleep wait;;
     match room with
     | O => raise RecursionError
     | S room' => api_get_nested room' url params
     end
   else
     raise_for_status resp;;
     lift (resp_json resp)).
Proof. destruct room; reflexivity. Qed.

(** An [api_get] that is refused its headers asks nothing. *)
Lemma api_get_no_headers (url : list piece) (params : option (gmap string pyvalue))
    (s s' : state) (e : exn) :
  get_headers s = (Raised e, s') -> api_get url params s = (Raised e, s').
Proof.
  intros H. unfold api_get. rewrite api_get_nested_eq.
  erewrite bind_raised by exact H. reflexivity.
Qed.

(** C10.  An artifact without "archive_download_url": [download_artifact]
    returns [None] and leaves the world as it was, so it sends no request and
    prints nothing; in [main] the artifact is announced and skipped, and
    [all_rows] gains no row. *)
Theorem download_artifact_without_url (artifact : gmap string pyvalue) (s : state) :
  artifact !! "archive_download_url" = None ->
  download_artifact (PyDict artifact) s = (Done None, s) /\
  (forall run run_id config workflow_name branch name,
      artifact !! "name" = Some name ->
      process_artifact run run_id config workflow_name branch (PyDict artifact) s =
        (Done tt, log s [EvPrint stdout [Lit "    Downloading: "; Fmt name]])).
Proof.
  intros Hurl.
  assert (Hdl : forall s0, download_artifact (PyDict artifact) s0 = (Done None, s0)).
  { intros s0. unfold download_artifact, get. rewrite Hurl. reflexivity. }
  split; [apply Hdl|].
  intros run run_id config workflow_name branch name Hname.
  unfold process_artifact, getitem. rewrite Hname.
  erewrite bind_done by reflexivity.
  erewrite bind_done by reflexivity.
  erewrite bind_done by apply Hdl.
  reflexivity.
Qed.

(** C6.  With the token or the repository identifier absent from the
    environment, the program ends with exit status 1 after printing the error
    message to stderr; before that it has made the output directory and
    printed its two banner lines, and it has sent no request. *)
Theorem missing_credentials_abort (fuel : nat) :
  GITHUB_TOKEN = None \/ GITHUB_REPO = None ->
  let msg := if env_truthy GITHUB_TOKEN
             then "ERROR: GITHUB_REPO environment variable not set."
             else "ERROR: GITHUB_TOKEN environment variable not set." in
  program (S fuel) =
    (Raised (SystemExit 1),
     log init [EvMkdir "results";
               EvPrint stdout [Lit "Repository: "; Lit (env_str GITHUB_REPO)];
               EvPrint stdout [Lit "Output: "; Lit OUTPUT_CSV; Lit nl];
               EvPrint stderr [Lit msg]]) /\
  Forall (fun e => forall req, e <> EvGet req) (trace (snd (program (S fuel)))).
Proof.
  intros Habsent msg.
  assert (Hrun : program (S fuel) =
    (Raised (SystemExit 1),
     log init [EvMkdir "results";
               EvPrint stdout [Lit "Repository: "; Lit (env_str GITHUB_REPO)];
               EvPrint stdout [Lit "Output: "; Lit OUTPUT_CSV; Lit nl];
               EvPrint stderr [Lit msg]])).
  { assert (Hheaders : forall s,
      get_headers s = (Raised (SystemExit 1), log s [EvPrint stderr [Lit msg]])).
    { intros s. subst msg. unfold get_headers.
      destruct (env_truthy GITHUB_TOKEN) eqn:Ht.
      - destruct Habsent as [Hn|Hn]; [rewrite Hn in Ht; discriminate|].
        rewrite Hn. reflexivity.
      - reflexivity. }
    unfold program, main, collect, list_workflow_runs, paginate.
    cbn [paginate_loop].
    erewrite bind_done by reflexivity.
    erewrite bind_raised; [reflexivity|].
    erewrite bind_done by reflexivity.
    erewrite bind_done by reflexivity.
    erewrite bind_raised; [reflexivity|].
    erewrite bind_raised; [reflexivity|].
    erewrite bind_raised; [reflexivity|].
    apply api_get_no_headers. exact (Hheaders _). }
  split; [exact Hrun|]. rewrite Hrun. cbn [snd trace].
  repeat constructor; intros req; discriminate.
Qed.

End Headers.

Lemma download_artifact_without_url_witness :
  @download_artifact Demo.github (PyDict Demo.no_url_artifact) init = (Done None, init).
Proof.
  exact (proj1 (@download_artifact_without_url Demo.github Demo.no_url_artifact init eq_refl)).
Defined.

Lemma missing_credentials_abort_witness :
  fst (@program (Demo.platform None (Some "jdoe/httpie-cli-carbon-study")) 1) =
  Raised (SystemExit 1).
Proof.
  exact (f_equal fst (proj1 (@missing_credentials_abort
           (Demo.platform None (Some "jdoe/httpie-cli-carbon-study")) 0
           (or_introl eq_refl)))).
Defined.

(** ** Pagination *)

Section Pagination.
Context {P : Platform}.
Variables (url : list piece) (key : string) (params : option (gmap string pyvalue)).
Variable pages : nat -> list pyvalue.

Hypothesis token_set : env_truthy GITHUB_TOKEN = true.
Hypothesis repo_set : env_truthy GITHUB_REPO = true.

Lemma api_get_page (i : nat) (ps : gmap string pyvalue) (s : state) (resp : response) :
  <["page" := PyInt (Z.of_nat i)]> ps =
    <["page" := PyInt (Z.of_nat i)]> (base_params params) ->
  requests_get (trace s) (page_request url params i) = Ok resp ->
  serves resp key (pages i) ->
  exists body,
    body !! key = Some (PyList (pages i)) /\
    api_get url (Some (<["page" := PyInt (Z.of_nat i)]> ps)) s =
      (Done (PyDict body), log s [EvGet (page_request url params i)]).
Proof.
  intros Hps Hresp (Hstatus & body & Hjson & Hbody).
  exists body. split; [exact Hbody|].
  unfold api_get. rewrite api_get_nested_eq.
  erewrite bind_done by (apply get_headers_ready; assumption).
  rewrite Hps.
  change {| req_url := url; req_headers := auth_headers;
            req_params := Some (<["page" := PyInt (Z.of_nat i)]> (base_params params));
            req_timeout := 30 |} with (page_request url params i).
  erewrite bind_done by (unfold http_get; rewrite Hresp; reflexivity).
  rewrite Hstatus. cbn [Z.eqb orb Pos.eqb].
  unfold raise_for_status. rewrite Hstatus.
  erewrite bind_done by reflexivity.
  rewrite Hjson. reflexivity.
Qed.

Lemma paginate_loop_pages (n : nat) :
  forall (fuel i : nat) (ps : gmap string pyvalue) (results : list pyvalue) (s : state),
    (S n <= fuel)%nat ->
    (forall v, <["page" := v]> ps = <["page" := v]> (base_params params)) ->
    (forall j, (i <= j < i + n)%nat -> (100 <= length (pages j))%nat) ->
    (length (pages (i + n)) < 100)%nat ->
    (forall tr j, (i <= j <= i + n)%nat ->
                  exists resp, requests_get tr (page_request url params j) = Ok resp /\
                               serves resp key (pages j)) ->
    paginate_loop fuel url key ps results (Z.of_nat i) s =
      (Done (results ++ concat (map pages (seq i (S n)))),
       log s (map (fun j => EvGet (page_request url params j)) (seq i (S n)))).
Proof.
  induction n as [|n IH]; intros fuel i ps results s Hfuel Hps Hfull Hshort Hserve.
  - destruct fuel as [|fuel]; [lia|].
    destruct (Hserve (trace s) i ltac:(lia)) as (resp & Hresp & Hserves).
    destruct (api_get_page i ps s resp (Hps _) Hresp Hserves) as (body & Hbody & Hget).
    cbn [paginate_loop]. erewrite bind_done by exact Hget.
    unfold get. rewrite Hbody. cbn [default from_option id lift].
    erewrite bind_done by reflexivity.
    cbn [iterate lift]. erewrite bind_done by reflexivity.
    rewrite Nat.add_0_r in Hshort.
    apply Nat.ltb_lt in Hshort. rewrite Hshort.
    cbn [seq map concat]. rewrite app_nil_r. reflexivity.
  - destruct fuel as [|fuel]; [lia|].
    destruct (Hserve (trace s) i ltac:(lia)) as (resp & Hresp & Hserves).
    destruct (api_get_page i ps s resp (Hps _) Hresp Hserves) as (body & Hbody & Hget).
    cbn [paginate_loop]. erewrite bind_done by exact Hget.
    unfold get. rewrite Hbody. cbn [default from_option id lift].
    erewrite bind_done by reflexivity.
    cbn [iterate lift]. erewrite bind_done by reflexivity.
    assert (Hi : (length (pages i) <? 100)%nat = false).
    { apply Nat.ltb_ge, Hfull. lia. }
    rewrite Hi.
    replace (Z.of_nat i + 1) with (Z.of_nat (S i)) by lia.
    rewrite (IH fuel (S i)).
    + cbn [seq map concat]. rewrite log_log, <- app_assoc. reflexivity.
    + lia.
    + intros v. rewrite insert_insert_eq. apply Hps.
    + intros j Hj. apply Hfull. lia.
    + replace (S i + n)%nat with (i + S n)%nat by lia. exact Hshort.
    + intros tr j Hj. apply Hserve. lia.
Qed.

(** C4.  When the remote service serves the pages [pages 1], [pages 2], ...
    under [key], the pages before page [k] hold at least 100 items and page
    [k] holds fewer, [paginate] returns pages 1 to [k] concatenated in that
    order, and the requests it sends are those for pages 1 to [k], one each:
    none for a later page. *)
Theorem paginate_stops_at_short_page (k fuel : nat) (s : state) :
  (1 <= k <= fuel)%nat ->
  (forall j, (1 <= j < k)%nat -> (100 <= length (pages j))%nat) ->
  (length (pages k) < 100)%nat ->
  (forall tr j, (1 <= j <= k)%nat ->
                exists resp, requests_get tr (page_request url params j) = Ok resp /\
                             serves resp key (pages j)) ->
  paginate fuel url key params s =
    (Done (concat (map pages (seq 1 k))),
     log s (map (fun j => EvGet (page_request url params j)) (seq 1 k))).
Proof.
  intros Hk Hfull Hshort Hserve. unfold paginate.
  destruct k as [|n]; [lia|].
  change 1 with (Z.of_nat 1).
  rewrite (paginate_loop_pages n fuel 1); [reflexivity | lia | reflexivity | | | ].
  - intros j Hj. apply Hfull. lia.
  - exact Hshort.
  - intros tr j Hj. apply Hserve. lia.
Qed.

End Pagination.

Lemma paginate_stops_at_short_page_witness :
  fst (@paginate Demo.github 2 Demo.listing_url "items" None init) =
  Done (repeat (PyInt 0) 100 ++ [PyInt 1]).
Proof.
  refine (f_equal fst
            (@paginate_stops_at_short_page Demo.github Demo.listing_url "items" None
               Demo.listing_page eq_refl eq_refl 2 2 init _ _ _ _)).
  - lia.
  - intros j Hj. assert (j = 1%nat) as -> by lia. vm_compute. lia.
  - vm_compute. lia.
  - intros tr j Hj. eexists. split; [reflexivity|].
    split; [reflexivity|]. eexists. split; [reflexivity|].
    assert (j = 1%nat \/ j = 2%nat) as [-> | ->] by lia; reflexivity.
Defined.

(** ** What the functions below [main] may do *)

Lemma extends_by_refl (ok : event -> bool) (s : state) : extends_by ok s s.
Proof. exists []. rewrite log_nil. split; reflexivity. Qed.

Lemma extends_by_trans (ok : event -> bool) (s1 s2 s3 : state) :
  extends_by ok s1 s2 -> extends_by ok s2 s3 -> extends_by ok s1 s3.
Proof.
  intros (evs1 & -> & Hok1) (evs2 & -> & Hok2). exists (evs1 ++ evs2).
  rewrite log_log, forallb_app, Hok1, Hok2. split; reflexivity.
Qed.

Lemma extends_by_event (ok : event -> bool) (s : state) (e : event) :
  ok e = true -> extends_by ok s (log s [e]).
Proof. intros He. exists [e]. cbn. rewrite He. split; reflexivity. Qed.

Section Emits.
Context {P : Platform}.
Variable ok : event -> bool.

Lemma emits_ret {A : Type} (a : A) : emits ok (mret a).
Proof. intros s. apply extends_by_refl. Qed.

Lemma emits_raise {A : Type} (e : exn) : emits ok (@raise A e).
Proof. intros s. apply extends_by_refl. Qed.

Lemma emits_sys_exit {A : Type} (code : Z) : emits ok (@sys_exit A code).
Proof. intros s. apply extends_by_refl. Qed.

Lemma emits_out_of_fuel {A : Type} : emits ok (@out_of_fuel A).
Proof. intros s. apply extends_by_refl. Qed.

Lemma emits_lift {A : Type} (r : result A) : emits ok (lift r).
Proof. destruct r; intros s; apply extends_by_refl. Qed.

Lemma emits_now : ok EvTime = true -> emits ok now.
Proof. intros He s. apply extends_by_event, He. Qed.

Lemma emits_file_op (e : event) : ok e = true -> emits ok (file_op e).
Proof.
  intros He s. unfold file_op.
  destruct (file_error (trace s) e); [apply extends_by_refl | apply extends_by_event, He].
Qed.

Lemma emits_finally (body cleanup : M unit) :
  emits ok body -> emits ok cleanup -> emits ok (finally body cleanup).
Proof.
  intros Hbody Hcleanup s. specialize (Hbody s). unfold finally.
  destruct (body s) as [[[]| |] s1]; cbn [snd] in *.
  - eapply extends_by_trans; [exact Hbody | apply Hcleanup].
  - specialize (Hcleanup s1).
    destruct (cleanup s1) as [[[]| |] s2]; cbn [snd] in *;
      (eapply extends_by_trans; [exact Hbody | exact Hcleanup]).
  - exact Hbody.
Qed.

Lemma emits_get_rows : emits ok get_rows.
Proof. intros s. apply extends_by_refl. Qed.

Lemma emits_bind {A B : Type} (m : M A) (f : A -> M B) :
  emits ok m -> (forall a, emits ok (f a)) -> emits ok (m ≫= f).
Proof.
  intros Hm Hf s. specialize (Hm s).
  unfold mbind, M_bind, bind. destruct (m s) as [[a| |] s1]; cbn [snd] in *.
  - eapply extends_by_trans; [exact Hm | apply Hf].
  - exact Hm.
  - exact Hm.
Qed.

Lemma emits_emit (e : event) : ok e = true -> emits ok (emit e).
Proof. intros He s. apply extends_by_event, He. Qed.

Lemma emits_print (f : stream) (msg : list piece) :
  ok (EvPrint f msg) = true -> emits ok (print f msg).
Proof. apply emits_emit. Qed.

Lemma emits_sleep (seconds : Z) : ok (EvSleep seconds) = true -> emits ok (sleep seconds).
Proof. apply emits_emit. Qed.

Lemma emits_http_get (req : request) : ok (EvGet req) = true -> emits ok (http_get req).
Proof.
  intros He s. unfold http_get.
  destruct (requests_get (trace s) req); apply extends_by_event, He.
Qed.

Lemma emits_for_each {A : Type} (l : list A) (body : A -> M unit) :
  (forall x, emits ok (body x)) -> emits ok (for_each l body).
Proof.
  intros Hbody. induction l as [|x l IH]; cbn [for_each].
  - apply emits_ret.
  - apply emits_bind; [apply Hbody | intros _; exact IH].
Qed.

End Emits.

(** One step of a proof of [emits]: a bind, a primitive, or a case. *)
Ltac emits_step :=
  lazymatch goal with
  | |- emits _ (_ ≫= _) => apply emits_bind; [|intros ?]
  | |- emits _ (mret _) => apply emits_ret
  | |- emits _ (raise _) => apply emits_raise
  | |- emits _ (sys_exit _) => apply emits_sys_exit
  | |- emits _ out_of_fuel => apply emits_out_of_fuel
  | |- emits _ (lift _) => apply emits_lift
  | |- emits _ now => apply emits_now; reflexivity
  | |- emits _ (file_op _) => apply emits_file_op; reflexivity
  | |- emits _ (finally _ _) => apply emits_finally
  | |- emits _ get_rows => apply emits_get_rows
  | |- emits _ (print _ _) => apply emits_print; reflexivity
  | |- emits _ (sleep _) => apply emits_sleep; reflexivity
  | |- emits _ (emit _) => apply emits_emit; reflexivity
  | |- emits _ (http_get _) => apply emits_http_get; reflexivity
  | |- emits _ (let _ := _ in _) => cbv zeta
  | |- emits _ (if ?b then _ else _) => destruct b
  | |- emits _ (match ?x with _ => _ end) => destruct x
  end.

Ltac emits_auto := repeat emits_step.

Section Plain.
Context {P : Platform}.

Lemma get_headers_plain : emits plain get_headers.
Proof. unfold get_headers. emits_auto. Qed.

Lemma raise_for_status_plain (resp : response) : emits plain (raise_for_status resp).
Proof. unfold raise_for_status. emits_auto. Qed.

Lemma api_get_nested_plain (room : nat) (url : list piece)
    (params : option (gmap string pyvalue)) :
  emits plain (api_get_nested room url params).
Proof.
  induction room as [|room IH]; rewrite api_get_nested_eq;
    (apply emits_bind; [apply get_headers_plain | intros headers]);
    (apply emits_bind; [emits_auto | intros resp]);
    (destruct (_ || _);
     [|apply emits_bind; [apply raise_for_status_plain | intros _]; emits_auto]).
  - emits_auto.
  - emits_auto. exact IH.
Qed.

Lemma api_get_plain (url : list piece) (params : option (gmap string pyvalue)) :
  emits plain (api_get url params).
Proof. intros s. apply api_get_nested_plain. Qed.

Lemma paginate_loop_plain (fuel : nat) (url : list piece) (key : string)
    (params : gmap string pyvalue) (results : list pyvalue) (page : Z) :
  emits plain (paginate_loop fuel url key params results page).
Proof.
  revert params results page.
  induction fuel as [|fuel IH]; intros params results page; [apply emits_out_of_fuel|].
  cbn [paginate_loop].
  apply emits_bind; [apply api_get_plain | intros data].
  apply emits_bind; [emits_auto | intros items].
  apply emits_bind; [emits_auto | intros extension].
  destruct (_ <? _)%nat; [emits_auto | apply IH].
Qed.

Lemma list_workflow_runs_plain (fuel : nat) : emits plain (list_workflow_runs fuel).
Proof.
  unfold list_workflow_runs, paginate.
  apply emits_bind; [apply paginate_loop_plain | intros runs]. emits_auto.
Qed.

Lemma list_artifacts_plain (run_id : pyvalue) :
  emits plain (list_artifacts run_id).
Proof.
  unfold list_artifacts.
  apply emits_bind; [apply api_get_plain | intros data]. emits_auto.
Qed.

Lemma download_artifact_plain (artifact : pyvalue) : emits plain (download_artifact artifact).
Proof.
  unfold download_artifact.
  apply emits_bind; [emits_auto | intros download_url].
  destruct (negb _); [emits_auto|].
  apply emits_bind; [apply get_headers_plain | intros headers]. emits_auto.
Qed.

Lemma parse_handlers_plain (artifact_name : pyvalue) (e : exn)
    (rows : list MeasurementRecord) :
  emits plain (parse_handlers artifact_name e rows).
Proof. unfold parse_handlers. emits_auto. Qed.

Lemma parse_eco_ci_json_plain (raw : list byte) (artifact_name : pyvalue) :
  emits plain (parse_eco_ci_json raw artifact_name).
Proof.
  unfold parse_eco_ci_json.
  destruct (zipfile_ZipFile raw) as [zf|e]; [|apply parse_handlers_plain].
  destruct (json_members zf); [emits_auto|].
  unfold parse_members. destruct (load_members _ _ _) as [rows' [e|]].
  - apply parse_handlers_plain.
  - emits_auto.
Qed.

End Plain.

(** ** Invariants of [main] *)

Lemma plain_not_written (evs : list event) :
  forallb plain evs = true -> Forall (fun e => file_write e = false) evs.
Proof.
  induction evs as [|e evs IH]; cbn; intros H; constructor.
  - apply andb_true_iff in H as [He _]. apply negb_true_iff, He.
  - apply andb_true_iff in H as [_ Hevs]. apply IH, Hevs.
Qed.

Lemma rows_match_extends (ok : event -> bool) (s s' : state) :
  extends_by ok s s' -> rows_match s -> rows_match s'.
Proof. intros (evs & -> & _) H. exact H. Qed.

Lemma nothing_written_extends (s s' : state) :
  extends_by plain s s' -> nothing_written s -> nothing_written s'.
Proof.
  intros (evs & -> & Hok) H. unfold nothing_written, log. cbn [trace].
  apply Forall_app. split; [exact H | apply plain_not_written, Hok].
Qed.

Lemma collecting_extends (s s' : state) :
  extends_by plain s s' -> collecting s -> collecting s'.
Proof.
  intros Hext [Hm Hw]. split.
  - eapply rows_match_extends; eassumption.
  - eapply nothing_written_extends; eassumption.
Qed.

Lemma fresh_extends (s s' : state) :
  extends_by plain s s' -> fresh s -> fresh s'.
Proof.
  intros Hext (Hrows & Hex & Hw). split; [|split].
  - destruct Hext as (evs & -> & _). exact Hrows.
  - destruct Hext as (evs & -> & _). exact Hex.
  - eapply nothing_written_extends; eassumption.
Qed.

Lemma fresh_collecting (s : state) : fresh s -> collecting s.
Proof.
  intros (Hrows & Hex & Hw). split; [|exact Hw].
  unfold rows_match. rewrite Hrows, Hex. constructor.
Qed.

Lemma fresh_init : fresh init.
Proof. repeat split; constructor. Qed.

Lemma hoare_plain {A : Type} (inv : state -> Prop) (m : M A) :
  (forall s s', extends_by plain s s' -> inv s -> inv s') ->
  emits plain m -> hoare inv m inv.
Proof. intros Hstable Hm s Hs. exact (Hstable _ _ (Hm s) Hs). Qed.

Lemma hoare_bind {A B : Type} (pre mid post : state -> Prop) (m : M A) (f : A -> M B) :
  hoare pre m mid ->
  (forall s, mid s -> post s) ->
  (forall a, hoare mid (f a) post) ->
  hoare pre (m ≫= f) post.
Proof.
  intros Hm Hmid Hf s Hs. specialize (Hm s Hs).
  unfold mbind, M_bind, bind. destruct (m s) as [[a| |] s1]; cbn [snd] in *.
  - apply Hf, Hm.
  - apply Hmid, Hm.
  - apply Hmid, Hm.
Qed.

Lemma hoare_for_each {A : Type} (inv : state -> Prop) (l : list A) (body : A -> M unit) :
  Forall (fun x => hoare inv (body x) inv) l ->
  hoare inv (for_each l body) inv.
Proof.
  induction 1 as [|x l Hx _ IH]; cbn [for_each].
  - intros s Hs. exact Hs.
  - eapply hoare_bind; [exact Hx | trivial | intros _; exact IH].
Qed.

Lemma lift_ok_bind {A B : Type} (a : A) (f : A -> M B) : lift (Ok a) ≫= f = f a.
Proof. reflexivity. Qed.

Lemma lift_raise_bind {A B : Type} (e : exn) (f : A -> M B) :
  lift (Raise e) ≫= f = raise e.
Proof. reflexivity. Qed.

Lemma hoare_raise {A : Type} (inv : state -> Prop) (e : exn) : hoare inv (@raise A e) inv.
Proof. intros s Hs. exact Hs. Qed.

Section Collecting.
Context {P : Platform}.

Lemma filter_eco_names (artifacts eco_artifacts : list pyvalue) :
  filter_eco artifacts = Ok eco_artifacts ->
  Forall (fun a => exists n, getitem a "name" = Ok (PyStr n)) eco_artifacts.
Proof.
  revert eco_artifacts. induction artifacts as [|a artifacts IH]; intros eco H.
  - injection H as <-. constructor.
  - cbn [filter_eco] in H. unfold is_eco in H.
    unfold mbind, result_mbind, result_bind in H.
    destruct (getitem a "name") as [name|] eqn:Hname; [|discriminate].
    destruct name; try discriminate.
    destruct (filter_eco artifacts) as [rest|]; [|discriminate].
    specialize (IH rest eq_refl).
    injection H as <-. destruct (Str.contains _ _); [|exact IH].
    constructor; [exists s; exact Hname | exact IH].
Qed.

(** The rows of one extraction, as [main] appends them. *)
Lemma append_extracted (run run_id : pyvalue) (config : string)
    (workflow_name branch : pyvalue) (python_version : string)
    (rows : list MeasurementRecord) :
  getitem run "id" = Ok run_id ->
  get run "name" (PyStr "unknown") = Ok workflow_name ->
  get run "head_branch" (PyStr "unknown") = Ok branch ->
  Forall2 row_from
    (map (fun row =>
            {| row_run_id := run_id; row_config := config;
               row_workflow := workflow_name; row_branch := branch;
               row_stage := stage row; row_energy_joules := energy_joules row;
               row_duration_seconds := duration_seconds row;
               row_timestamp := timestamp row;
               row_python_version := python_version |}) rows)
    (map (pair run) rows).
Proof.
  intros Hid Hname Hbranch. induction rows as [|row rows IH]; cbn [map]; constructor.
  - cbn. repeat split; assumption.
  - exact IH.
Qed.

(** One artifact, downloaded and parsed: its records are noted and, one row
    each and in the same order, appended to [all_rows]. *)
Lemma process_artifact_extracts (run run_id : pyvalue) (config : string)
    (workflow_name branch artifact : pyvalue) (n : string) (raw : list byte)
    (rows : list MeasurementRecord) (s s1 s2 : state) :
  getitem artifact "name" = Ok (PyStr n) ->
  download_artifact artifact
    (log s [EvPrint stdout [Lit "    Downloading: "; Fmt (PyStr n)]]) = (Done (Some raw), s1) ->
  parse_eco_ci_json raw (PyStr n) s1 = (Done rows, s2) ->
  process_artifact run run_id config workflow_name branch artifact s =
    (Done tt,
     {| trace := trace s2;
        all_rows :=
          all_rows s2 ++
          map (fun row =>
                 {| row_run_id := run_id; row_config := config;
                    row_workflow := workflow_name; row_branch := branch;
                    row_stage := stage row; row_energy_joules := energy_joules row;
                    row_duration_seconds := duration_seconds row;
                    row_timestamp := timestamp row;
                    row_python_version := first_py (Str.split n "-") |}) rows;
        extracted := extracted s2 ++ map (pair run) rows |}).
Proof.
  intros Hn Hdl Hparse. unfold process_artifact. rewrite Hn, lift_ok_bind.
  erewrite bind_done by reflexivity.
  erewrite bind_done by exact Hdl. cbn beta iota.
  erewrite bind_done by exact Hparse.
  erewrite bind_done by reflexivity.
  cbn [infer_python_version]. rewrite lift_ok_bind, for_each_append_row. reflexivity.
Qed.

Lemma process_artifact_collecting (run run_id : pyvalue) (config : string)
    (workflow_name branch artifact : pyvalue) (n : string) :
  getitem run "id" = Ok run_id ->
  get run "name" (PyStr "unknown") = Ok workflow_name ->
  get run "head_branch" (PyStr "unknown") = Ok branch ->
  getitem artifact "name" = Ok (PyStr n) ->
  hoare collecting
    (process_artifact run run_id config workflow_name branch artifact) collecting.
Proof.
  intros Hid Hname Hbranch Hn. unfold process_artifact.
  rewrite Hn, lift_ok_bind.
  eapply hoare_bind;
    [apply (hoare_plain _ _ collecting_extends); emits_auto | trivial | intros _].
  eapply hoare_bind;
    [apply (hoare_plain _ _ collecting_extends), download_artifact_plain | trivial
    | intros [raw|]]; [|intros s Hs; exact Hs].
  eapply hoare_bind;
    [apply (hoare_plain _ _ collecting_extends), parse_eco_ci_json_plain | trivial
    | intros rows].
  intros s [Hm Hw].
  erewrite bind_done by reflexivity.
  cbn [infer_python_version]. rewrite lift_ok_bind, for_each_append_row.
  cbn [snd trace all_rows extracted]. split.
  - unfold rows_match. cbn [all_rows extracted].
    apply Forall2_app; [exact Hm | apply append_extracted; assumption].
  - exact Hw.
Qed.

Lemma process_run_collecting (run : pyvalue) :
  hoare collecting (process_run run) collecting.
Proof.
  unfold process_run.
  destruct (getitem run "id") as [run_id|e] eqn:Hid;
    [rewrite lift_ok_bind | rewrite lift_raise_bind; apply hoare_raise].
  destruct (get run "head_branch" (PyStr "unknown")) as [branch|e] eqn:Hbranch;
    [rewrite lift_ok_bind | rewrite lift_raise_bind; apply hoare_raise].
  destruct (get run "name" (PyStr "unknown")) as [workflow_name|e] eqn:Hname;
    [rewrite lift_ok_bind | rewrite lift_raise_bind; apply hoare_raise].
  destruct (infer_config run) as [config|e];
    [rewrite lift_ok_bind | rewrite lift_raise_bind; apply hoare_raise].
  eapply hoare_bind;
    [apply (hoare_plain _ _ collecting_extends); emits_auto | trivial | intros _].
  eapply hoare_bind;
    [apply (hoare_plain _ _ collecting_extends), list_artifacts_plain | trivial
    | intros artifacts].
  destruct (iterate artifacts) as [elements|e];
    [rewrite lift_ok_bind | rewrite lift_raise_bind; apply hoare_raise].
  destruct (filter_eco elements) as [eco_artifacts|e] eqn:Heco;
    [rewrite lift_ok_bind | rewrite lift_raise_bind; apply hoare_raise].
  pose proof (filter_eco_names _ _ Heco) as Hnames.
  destruct eco_artifacts as [|a eco_artifacts].
  - apply (hoare_plain _ _ collecting_extends). emits_auto.
  - apply hoare_for_each.
    eapply Forall_impl; [exact Hnames|].
    intros artifact [n Hn]. cbn beta.
    eapply process_artifact_collecting; eassumption.
Qed.

Lemma collect_collecting (fuel : nat) : hoare fresh (collect fuel) collecting.
Proof.
  unfold collect.
  eapply (hoare_bind fresh fresh);
    [apply (hoare_plain _ _ fresh_extends); emits_auto | apply fresh_collecting | intros _].
  eapply (hoare_bind fresh fresh);
    [apply (hoare_plain _ _ fresh_extends); emits_auto | apply fresh_collecting | intros _].
  eapply (hoare_bind fresh fresh);
    [apply (hoare_plain _ _ fresh_extends), list_workflow_runs_plain
    | apply fresh_collecting | intros runs].
  eapply (hoare_bind fresh collecting);
    [ | trivial | intros _].
  - intros s (_ & Hex & Hw). split; [|exact Hw].
    unfold rows_match, clear_rows. cbn [snd all_rows extracted]. rewrite Hex. constructor.
  - apply hoare_for_each, Forall_forall. intros run _. apply process_run_collecting.
Qed.

Lemma mkdir_fresh : hoare fresh (emit (EvMkdir "results")) fresh.
Proof. apply (hoare_plain _ _ fresh_extends). emits_auto. Qed.

Lemma writerows_events (rows : list OutputRow) : emits any (writerows rows).
Proof. apply emits_for_each. intros row. emits_auto. Qed.

Lemma report_events : emits any report.
Proof.
  unfold report, with_open, writeheader.
  apply emits_bind; [emits_auto | intros rows].
  destruct rows; [emits_auto|].
  apply emits_bind; [|intros _; emits_auto].
  apply emits_bind; [emits_auto | intros _].
  apply emits_finally; [|emits_auto].
  apply emits_bind; [emits_auto | intros _]. apply writerows_events.
Qed.

End Collecting.

(** ** Fuel

    Fuel only bounds the loop of [paginate]: an execution that ends without
    exhausting it is the same with any larger amount. *)

Lemma refines_refl {A : Type} (m : M A) : refines m m.
Proof. intros s _. reflexivity. Qed.

Lemma refines_bind {A B : Type} (m m' : M A) (f f' : A -> M B) :
  refines m m' -> (forall a, refines (f a) (f' a)) ->
  refines (m ≫= f) (m' ≫= f').
Proof.
  intros Hm Hf s Hs. unfold mbind, M_bind, bind in *.
  destruct (m s) as [[a| |] s1] eqn:E.
  - rewrite (Hm s), E by (rewrite E; discriminate). apply Hf, Hs.
  - rewrite (Hm s), E by (rewrite E; discriminate). reflexivity.
  - destruct Hs. reflexivity.
Qed.

Lemma refines_for_each {A : Type} (l : list A) (body body' : A -> M unit) :
  (forall x, refines (body x) (body' x)) ->
  refines (for_each l body) (for_each l body').
Proof.
  intros Hbody. induction l as [|x l IH]; cbn [for_each].
  - apply refines_refl.
  - apply refines_bind; [apply Hbody | intros _; exact IH].
Qed.


Section Fuel.
Context {P : Platform}.



End Fuel.

(** ** The aggregator *)

Lemma bind_assoc_run {A B C : Type} (m : M A) (f : A -> M B) (g : B -> M C) (s : state) :
  (m ≫= (fun a => f a ≫= g)) s = ((m ≫= f) ≫= g) s.
Proof.
  unfold mbind, M_bind, bind. destruct (m s) as [[a| |] s1]; reflexivity.
Qed.

Section Aggregator.
Context {P : Platform}.


Lemma file_op_accepted (e : event) (s : state) :
  file_error (trace s) e = None -> file_op e s = (Done tt, log s [e]).
Proof. intros H. unfold file_op. rewrite H. reflexivity. Qed.

Lemma file_op_refused (e : event) (s : state) (ex : exn) :
  file_error (trace s) e = Some ex -> file_op e s = (Raised ex, s).
Proof. intros H. unfold file_op. rewrite H. reflexivity. Qed.





End Aggregator.




(** The demo run extracts two records and builds their two rows. *)
Example demo_rows :
  map row_stage (all_rows (snd (@program Demo.github 3))) = [PyStr "a"; PyStr "b"] /\
  map (fun x => stage (snd x)) (extracted (snd (@program Demo.github 3)))
    = [PyStr "a"; PyStr "b"].
Proof. split; vm_compute; reflexivity. Qed.

(** * Further properties *)

(** ** [api_get] *)

Section ApiGet.
Context {P : Platform}.

Lemma api_get_attempt (room : nat) (url : list piece)
    (params : option (gmap string pyvalue)) (s : state) (resp : response) :
  env_truthy GITHUB_TOKEN = true ->
  env_truthy GITHUB_REPO = true ->
  requests_get (trace s) (api_request url params) = Ok resp ->
  api_get_nested room url params s =
    (if (status_code resp =? 429) || (status_code resp =? 403) then
       t0 ← now;
       reset ← lift (match ratelimit_reset resp with
                     | Some h => int_of_str h
                     | None => Ok (t0 + 60)
                     end);
       t ← now;
       let wait := Z.max (reset - t) 10 in
       print stdout [Lit "Rate-limited. Waiting "; Fmt (PyInt wait); Lit "s …"];;
       sleep wait;;
       match room with
       | O => raise RecursionError
       | S room' => api_get_nested room' url params
       end
     else
       raise_for_status resp;;
       lift (resp_json resp)) (log s [EvGet (api_request url params)]).
Proof.
  intros Ht Hr Hresp. rewrite api_get_nested_eq.
  erewrite bind_done by (apply get_headers_ready; assumption).
  erewrite bind_done by (unfold http_get; fold (api_request url params);
                         rewrite Hresp; reflexivity).
  reflexivity.
Qed.




(** X2.  An answer with a client or server error status other than 429 and 403:
    [api_get] raises [HTTPError] after that one request; it does not sleep
    and does not ask again. *)
Theorem api_get_http_error (url : list piece)
    (params : option (gmap string pyvalue)) (s : state) (resp : response) :
  env_truthy GITHUB_TOKEN = true ->
  env_truthy GITHUB_REPO = true ->
  requests_get (trace s) (api_request url params) = Ok resp ->
  rate_limited resp = false ->
  400 <= status_code resp < 600 ->
  api_get url params s =
    (Raised (HTTPError (status_code resp)), log s [EvGet (api_request url params)]).
Proof.
  intros Ht Hr Hresp Hlim Hstatus. unfold api_get.
  rewrite (api_get_attempt _ url params s resp Ht Hr Hresp).
  unfold rate_limited in Hlim. rewrite Hlim. unfold raise_for_status.
  replace ((400 <=? status_code resp) && (status_code resp <? 600)) with true
    by (symmetry; apply andb_true_iff; split; [apply Z.leb_le | apply Z.ltb_lt]; lia).
  reflexivity.
Qed.

(** X1.  Any other answer: [api_get] returns what [resp.json()] gives, or raises
    what it raises, after that one request, which carries the three headers
    and a timeout of thirty seconds. *)
Theorem api_get_returns_json (url : list piece)
    (params : option (gmap string pyvalue)) (s : state) (resp : response) :
  env_truthy GITHUB_TOKEN = true ->
  env_truthy GITHUB_REPO = true ->
  requests_get (trace s) (api_request url params) = Ok resp ->
  rate_limited resp = false ->
  status_code resp < 400 \/ 600 <= status_code resp ->
  api_get url params s =
    (match resp_json resp with
     | Ok data => Done data
     | Raise e => Raised e
     end, log s [EvGet (api_request url params)]) /\
  req_timeout (api_request url params) = 30 /\
  map fst (req_headers (api_request url params)) =
    ["Authorization"; "Accept"; "X-GitHub-Api-Version"].
Proof.
  intros Ht Hr Hresp Hlim Hstatus. split; [|split; reflexivity]. unfold api_get.
  rewrite (api_get_attempt _ url params s resp Ht Hr Hresp).
  unfold rate_limited in Hlim. rewrite Hlim. unfold raise_for_status.
  replace ((400 <=? status_code resp) && (status_code resp <? 600)) with false.
  - erewrite bind_done by reflexivity. destruct (resp_json resp); reflexivity.
  - symmetry. apply andb_false_iff.
    destruct Hstatus; [left; apply Z.leb_gt | right; apply Z.ltb_ge]; lia.
Qed.

(** A rate-limited answer whose reset header [int] rejects: the exception
    of [int] leaves [api_get] after the one reading of the clock; there is
    no notice, no sleep and no second request. *)
Theorem api_get_bad_reset_header (url : list piece)
    (params : option (gmap string pyvalue)) (s : state) (resp : response)
    (h : string) (e : exn) :
  env_truthy GITHUB_TOKEN = true ->
  env_truthy GITHUB_REPO = true ->
  requests_get (trace s) (api_request url params) = Ok resp ->
  rate_limited resp = true ->
  ratelimit_reset resp = Some h ->
  int_of_str h = Raise e ->
  api_get url params s = (Raised e, log s [EvGet (api_request url params); EvTime]).
Proof.
  intros Ht Hr Hresp Hlim Hh He. unfold api_get.
  rewrite (api_get_attempt _ url params s resp Ht Hr Hresp).
  unfold rate_limited in Hlim. rewrite Hlim, Hh, He.
  erewrite bind_done by reflexivity. rewrite log_log. reflexivity.
Qed.

End ApiGet.

(** ** [download_artifact] *)

Section Download.
Context {P : Platform}.

(** X10.  A download reference that is present but falsy (null, the empty string,
    zero, an empty list or dict) counts as none: [download_artifact] returns
    [None] and does nothing, whatever the credentials. *)
Theorem download_artifact_falsy_url (artifact : gmap string pyvalue) (s : state) :
  truthy (default PyNone (artifact !! "archive_download_url")) = false ->
  download_artifact (PyDict artifact) s = (Done None, s).
Proof.
  intros Hfalsy. unfold download_artifact, get.
  cbn [lift]. erewrite bind_done by reflexivity. rewrite Hfalsy. reflexivity.
Qed.

(** X11.  With a download reference, the credentials are checked before the
    request: a token or repository identifier that is unset or empty ends
    the program with exit status 1 and an error line on stderr, and nothing
    is requested. *)
Theorem download_artifact_checks_credentials (artifact : gmap string pyvalue) (s : state) :
  truthy (default PyNone (artifact !! "archive_download_url")) = true ->
  env_truthy GITHUB_TOKEN = false \/ env_truthy GITHUB_REPO = false ->
  download_artifact (PyDict artifact) s =
    (Raised (SystemExit 1),
     log s [EvPrint stderr
              [Lit (if env_truthy GITHUB_TOKEN
                    then "ERROR: GITHUB_REPO environment variable not set."
                    else "ERROR: GITHUB_TOKEN environment variable not set.")]]).
Proof.
  intros Hurl Hcred. unfold download_artifact, get.
  cbn [lift]. erewrite bind_done by reflexivity. rewrite Hurl. cbn [negb].
  unfold get_headers.
  destruct (env_truthy GITHUB_TOKEN) eqn:Ht.
  - destruct Hcred as [Hc|Hc]; [discriminate|]. rewrite Hc. reflexivity.
  - reflexivity.
Qed.

(** X12.  Status 200: the content of the response is returned, after one request
    to the download reference with the three headers and a timeout of sixty
    seconds; nothing is printed. *)
Theorem download_artifact_ok (artifact : gmap string pyvalue) (s : state)
    (resp : response) :
  let url := default PyNone (artifact !! "archive_download_url") in
  env_truthy GITHUB_TOKEN = true ->
  env_truthy GITHUB_REPO = true ->
  truthy url = true ->
  requests_get (trace s) (download_request url) = Ok resp ->
  status_code resp = 200 ->
  download_artifact (PyDict artifact) s =
    (Done (Some (content resp)), log s [EvGet (download_request url)]).
Proof.
  intros url Ht Hr Hurl Hresp Hstatus. unfold download_artifact, get.
  cbn [lift]. erewrite bind_done by reflexivity. fold url. rewrite Hurl. cbn [negb].
  erewrite bind_done by (apply get_headers_ready; assumption).
  erewrite bind_done by (unfold http_get; fold (download_request url);
                         rewrite Hresp; reflexivity).
  rewrite Hstatus. reflexivity.
Qed.


(** X14.  An exception of [requests.get] itself (a timeout, a refused connection)
    is not turned into a warning: it leaves [download_artifact]. *)
Theorem download_artifact_request_raises (artifact : gmap string pyvalue) (s : state)
    (e : exn) :
  let url := default PyNone (artifact !! "archive_download_url") in
  env_truthy GITHUB_TOKEN = true ->
  env_truthy GITHUB_REPO = true ->
  truthy url = true ->
  requests_get (trace s) (download_request url) = Raise e ->
  download_artifact (PyDict artifact) s = (Raised e, log s [EvGet (download_request url)]).
Proof.
  intros url Ht Hr Hurl Hresp. unfold download_artifact, get.
  cbn [lift]. erewrite bind_done by reflexivity. fold url. rewrite Hurl. cbn [negb].
  erewrite bind_done by (apply get_headers_ready; assumption).
  erewrite bind_raised by (unfold http_get; fold (download_request url);
                           rewrite Hresp; reflexivity).
  reflexivity.
Qed.

End Download.

(** ** [parse_eco_ci_json] beside its main path *)

Section MoreExtraction.
Context {P : Platform}.

Lemma filter_none {A : Type} (f : A -> bool) (l : list A) :
  Forall (fun x => f x = false) l -> List.filter f l = [].
Proof.
  induction 1 as [|x l Hx _ IH]; [reflexivity|]. cbn. rewrite Hx. exact IH.
Qed.

(** A valid archive none of whose member names ends in ".json", the empty
    archive included: one warning, the empty list, and no member is read. *)
Theorem parse_eco_ci_json_no_json_member (raw : list byte) (artifact_name : pyvalue)
    (zf : ZipFile) (s : state) :
  zipfile_ZipFile raw = Ok zf ->
  Forall (fun n => Str.endswith n ".json" = false) (namelist zf) ->
  parse_eco_ci_json raw artifact_name s =
    (Done [],
     log s [EvPrint stdout [Lit "  WARNING: No JSON files found in artifact '";
                            Fmt artifact_name; Lit "'"]]).
Proof.
  intros Hzf Hnames. unfold parse_eco_ci_json, json_members.
  rewrite Hzf, (filter_none _ _ Hnames). reflexivity.
Qed.

Lemma parse_after_members (raw : list byte) (artifact_name : pyvalue) (zf : ZipFile)
    (before after : list string) (fname : string)
    (dss : list (list (gmap string pyvalue))) (s : state) :
  zipfile_ZipFile raw = Ok zf ->
  json_members zf = before ++ fname :: after ->
  Forall2 (member_objects zf) before dss ->
  exists rows,
    Forall2 record_for (concat dss) rows /\
    forall e, load_member zf fname rows = (rows, Some e) ->
              parse_eco_ci_json raw artifact_name s = parse_handlers artifact_name e rows s.
Proof.
  intros Hzf Hfiles Hbefore.
  destruct (load_members_objects zf before dss [] Hbefore) as (rows & Hrows & Hall).
  exists rows. split; [exact Hall|]. intros e He.
  exact (parse_stops_at_member raw artifact_name zf before after fname "" e rows s
           Hzf Hfiles Hrows He).
Qed.

(** X15.  A member that cannot be read out of the archive ([BadZipFile] from
    [zf.open]: a damaged entry), after members that are read and parsed:
    the records of those earlier members are returned, with the warning that
    the artifact is not a valid zip file. *)
Theorem parse_eco_ci_json_damaged_member (raw : list byte) (artifact_name : pyvalue)
    (zf : ZipFile) (before after : list string) (fname : string)
    (dss : list (list (gmap string pyvalue))) (s : state) :
  zipfile_ZipFile raw = Ok zf ->
  json_members zf = before ++ fname :: after ->
  Forall2 (member_objects zf) before dss ->
  zf_open zf fname = Raise BadZipFile ->
  exists rows,
    parse_eco_ci_json raw artifact_name s =
      (Done rows,
       log s [EvPrint stdout [Lit "  WARNING: Artifact '"; Fmt artifact_name;
                              Lit "' is not a valid zip file."]]) /\
    Forall2 record_for (concat dss) rows.
Proof.
  intros Hzf Hfiles Hbefore Hopen.
  destruct (parse_after_members raw artifact_name zf before after fname dss s
              Hzf Hfiles Hbefore) as (rows & Hall & Hstop).
  exists rows. split; [|exact Hall].
  rewrite (Hstop BadZipFile); [reflexivity|].
  unfold load_member. rewrite Hopen. reflexivity.
Qed.

(** X16.  An exception of the libraries that neither [except] clause names (from
    opening the archive, from reading a member, or from [json.load], such as
    a decoding error of the text): it leaves [parse_eco_ci_json], nothing is
    printed, and the records of earlier members are lost with it. *)
Theorem parse_eco_ci_json_propagates (raw : list byte) (artifact_name : pyvalue)
    (s : state) (e : exn) :
  uncaught e ->
  (zipfile_ZipFile raw = Raise e ->
   parse_eco_ci_json raw artifact_name s = (Raised e, s)) /\
  (forall zf before fname after dss,
      zipfile_ZipFile raw = Ok zf ->
      json_members zf = before ++ fname :: after ->
      Forall2 (member_objects zf) before dss ->
      zf_open zf fname = Raise e \/
      (exists f, zf_open zf fname = Ok f /\ json_load f = Raise e) ->
      parse_eco_ci_json raw artifact_name s = (Raised e, s)).
Proof.
  intros [Hzip Hjson].
  assert (Hhandle : forall rows, parse_handlers artifact_name e rows s = (Raised e, s)).
  { intros rows. destruct e; try reflexivity; [congruence | destruct (Hjson msg); reflexivity]. }
  split.
  - intros Hzf. unfold parse_eco_ci_json. rewrite Hzf. apply Hhandle.
  - intros zf before fname after dss Hzf Hfiles Hbefore Hfail.
    destruct (parse_after_members raw artifact_name zf before after fname dss s
                Hzf Hfiles Hbefore) as (rows & _ & Hstop).
    rewrite (Hstop e); [apply Hhandle|].
    unfold load_member. destruct Hfail as [Hopen | (f & Hopen & Hload)].
    + rewrite Hopen. reflexivity.
    + rewrite Hopen, Hload. reflexivity.
Qed.

Lemma append_measurements_stops (ds : list (gmap string pyvalue)) (v : pyvalue)
    (rest : list pyvalue) (rows : list MeasurementRecord) :
  (forall d, v <> PyDict d) ->
  exists rows', append_measurements (map PyDict ds ++ v :: rest) rows
                = (rows', Some AttributeError).
Proof.
  intros Hv. revert rows. induction ds as [|d ds IH]; intros rows.
  - exists rows. cbn. destruct v; try reflexivity. destruct (Hv d). reflexivity.
  - destruct (measurement_row_dict d) as (r & Hr & _).
    destruct (IH (rows ++ [r])) as [rows' Hrows'].
    exists rows'. cbn [map app append_measurements]. rewrite Hr. exact Hrows'.
Qed.

(** X17.  A measurement that is not an object, anywhere in the list of a member
    that parses: [AttributeError] leaves [parse_eco_ci_json] unannounced, and
    the records gathered so far, of this member and of the earlier ones, are
    lost with it. *)
Theorem parse_eco_ci_json_bad_measurement (raw : list byte) (artifact_name : pyvalue)
    (zf : ZipFile) (before after : list string) (fname : string)
    (dss : list (list (gmap string pyvalue))) (f : list byte)
    (ds : list (gmap string pyvalue)) (v : pyvalue) (rest : list pyvalue) (s : state) :
  zipfile_ZipFile raw = Ok zf ->
  json_members zf = before ++ fname :: after ->
  Forall2 (member_objects zf) before dss ->
  zf_open zf fname = Ok f ->
  json_load f = Ok (PyList (map PyDict ds ++ v :: rest)) ->
  (forall d, v <> PyDict d) ->
  parse_eco_ci_json raw artifact_name s = (Raised AttributeError, s).
Proof.
  intros Hzf Hfiles Hbefore Hopen Hload Hv.
  destruct (load_members_objects zf before dss [] Hbefore) as (rows & Hrows & _).
  cbn [app] in Hrows.
  destruct (append_measurements_stops ds v rest rows Hv) as [rows' Hstop].
  unfold parse_eco_ci_json. rewrite Hzf, Hfiles.
  destruct (before ++ fname :: after) eqn:E; [destruct before; discriminate|].
  rewrite <- E. unfold parse_members.
  rewrite load_members_app, Hrows. cbn [load_members].
  unfold load_member. rewrite Hopen, Hload. cbn [select_measurements iterate].
  rewrite Hstop. reflexivity.
Qed.

(** A mapping whose "measurements" is not a sequence: the empty mapping and
    the empty string give no record; a number, a boolean or null raises
    [TypeError], which leaves the function. *)
Theorem parse_eco_ci_json_measurements_not_a_list (raw : list byte)
    (artifact_name : pyvalue) (zf : ZipFile) (fname : string) (f : list byte)
    (d : gmap string pyvalue) (v : pyvalue) (s : state) :
  zipfile_ZipFile raw = Ok zf ->
  json_members zf = [fname] ->
  zf_open zf fname = Ok f ->
  json_load f = Ok (PyDict d) ->
  d !! "measurements" = Some v ->
  (v = PyDict ∅ \/ v = PyStr "" ->
   parse_eco_ci_json raw artifact_name s = (Done [], s)) /\
  (v = PyNone \/ (exists b, v = PyBool b) \/ (exists n, v = PyInt n) \/
   (exists x, v = PyFloat x) ->
   parse_eco_ci_json raw artifact_name s = (Raised TypeError, s)).
Proof.
  intros Hzf Hfiles Hopen Hload Hm.
  assert (Hrun : parse_eco_ci_json raw artifact_name s =
    match iterate v with
    | Ok ms => match append_measurements ms [] with
               | (rows', None) => mret rows'
               | (rows', Some e) => parse_handlers artifact_name e rows'
               end
    | Raise e => parse_handlers artifact_name e []
    end s).
  { unfold parse_eco_ci_json. rewrite Hzf, Hfiles.
    unfold parse_members. cbn [load_members].
    unfold load_member. rewrite Hopen, Hload. cbn [select_measurements].
    rewrite Hm. cbn [default from_option id].
    destruct (iterate v) as [ms|e]; [|reflexivity].
    destruct (append_measurements ms []) as [rows' [e|]]; reflexivity. }
  rewrite Hrun. split.
  - intros [-> | ->]; [|reflexivity].
    cbn [iterate]. rewrite map_to_list_empty. reflexivity.
  - intros [-> | [[b ->] | [[n ->] | [x ->]]]]; reflexivity.
Qed.

(** X18.  Whatever the bytes and the libraries: [parse_eco_ci_json] prints at most
    one line, a warning on stdout, and does nothing else to the world; it
    prints only when it returns, never when it raises. *)
Theorem parse_eco_ci_json_one_warning (raw : list byte) (artifact_name : pyvalue)
    (s : state) :
  parse_eco_ci_json raw artifact_name s
    = (fst (parse_eco_ci_json raw artifact_name s), s) \/
  exists rows e,
    parse_eco_ci_json raw artifact_name s = (Done rows, log s [e]) /\ warning_line e.
Proof.
  assert (Hhandle : forall e rows,
    parse_handlers artifact_name e rows s
      = (fst (parse_handlers artifact_name e rows s), s) \/
    exists rows' ev,
      parse_handlers artifact_name e rows s = (Done rows', log s [ev]) /\ warning_line ev).
  { intros e rows. destruct e; try (left; reflexivity);
      right; exists rows; eexists; (split; [reflexivity|]);
      eexists _, _; split; reflexivity. }
  unfold parse_eco_ci_json.
  destruct (zipfile_ZipFile raw) as [zf|e]; [|apply Hhandle].
  destruct (json_members zf) as [|fname files].
  - right. exists []. eexists. split; [reflexivity|]. eexists _, _; split; reflexivity.
  - unfold parse_members.
    destruct (load_members zf (fname :: files) []) as [rows' [e|]]; [apply Hhandle|].
    left. reflexivity.
Qed.

End MoreExtraction.

(** ** The two inferences *)

Lemma match_branch_label (branch : pyvalue) (items : list (string * string)) (l : string) :
  match_branch branch items = Ok (Some l) -> In l (map snd items).
Proof.
  induction items as [|[k l'] items IH]; cbn [match_branch]; intros H; [discriminate|].
  destruct branch; try discriminate.
  destruct (_ || _); [injection H as <-; left; reflexivity | right; apply IH, H].
Qed.

Lemma workflow_label (file l : string) :
  WORKFLOW_CONFIG_MAP !! file = Some l -> l = "C1" \/ l = "C3".
Proof.
  unfold WORKFLOW_CONFIG_MAP. intros H.
  repeat (apply lookup_insert_Some in H as [[_ <-]|[_ H]]; [auto|]).
  rewrite lookup_empty in H. discriminate.
Qed.

Lemma infer_config_range (run : pyvalue) (l : string) :
  infer_config run = Ok l -> config_label l.
Proof.
  unfold infer_config, config_label, mbind, result_mbind, result_bind.
  destruct (get run "head_branch" (PyStr "")) as [branch|]; [|discriminate].
  destruct (match_branch branch BRANCH_CONFIG_MAP) as [[found|]|] eqn:Hb; [| |discriminate].
  - intros H. injection H as <-. apply match_branch_label in Hb. cbn in Hb. cbn. tauto.
  - destruct (get run "path" (PyStr "")) as [path|]; [|discriminate].
    destruct path; try discriminate. intros H. injection H as <-.
    destruct (WORKFLOW_CONFIG_MAP !! _) as [l|] eqn:Hw; cbn.
    + destruct (workflow_label _ _ Hw) as [-> | ->]; tauto.
    + tauto.
Qed.

(** X19.  Whatever the run, a label that [infer_config] returns is one of "C1",
    "C2", "C3", "C4" and "unknown". *)
Theorem infer_config_label (run : pyvalue) (l : string) :
  infer_config run = Ok l -> config_label l.
Proof. apply infer_config_range. Qed.

Lemma match_branch_some (b : string) (items : list (string * string)) :
  Exists (fun entry => b = fst entry \/ exists r, b = fst entry +:+ r) items ->
  exists l, match_branch (PyStr b) items = Ok (Some l).
Proof.
  induction 1 as [[k l] items Hk | [k l] items _ IH]; rewrite match_branch_cons.
  - exists l. destruct Hk as [-> | [r ->]]; cbn [fst].
    + rewrite String.eqb_refl. reflexivity.
    + rewrite StrFacts.startswith_app, orb_true_r. reflexivity.
  - destruct (_ || _); [exists l; reflexivity | exact IH].
Qed.

(** X20.  The path is read only when no branch entry matches.  A run whose branch
    matches gets its label whatever its "path" holds, even null or a
    number; a run whose branch matches nothing and whose "path" is not a
    string makes [infer_config] raise [AttributeError]. *)
Theorem infer_config_reads_path_last (run : gmap string pyvalue) (b : string)
    (v : pyvalue) :
  run !! "head_branch" = Some (PyStr b) ->
  (Exists (fun entry => b = fst entry \/ exists r, b = fst entry +:+ r) BRANCH_CONFIG_MAP ->
   exists l, infer_config (PyDict (<["path" := v]> run)) = Ok l /\
             infer_config (PyDict (delete "path" run)) = Ok l) /\
  (Forall (no_match b) BRANCH_CONFIG_MAP ->
   (forall p, v <> PyStr p) ->
   infer_config (PyDict (<["path" := v]> run)) = Raise AttributeError).
Proof.
  intros Hb. split.
  - intros Hmatch. destruct (match_branch_some b _ Hmatch) as [l Hl]. exists l.
    unfold infer_config, get. cbn [mbind result_mbind result_bind].
    rewrite (lookup_insert_ne run "path" "head_branch"),
      (lookup_delete_ne run "path" "head_branch"), Hb by done.
    cbn [default from_option id]. rewrite Hl. split; reflexivity.
  - intros Hnone Hv. unfold infer_config, get. cbn [mbind result_mbind result_bind].
    rewrite (lookup_insert_ne run "path" "head_branch"), Hb by done.
    cbn [default from_option id].
    rewrite (match_branch_none _ _ Hnone), lookup_insert_eq. cbn [default from_option id].
    destruct v; try reflexivity. destruct (Hv s). reflexivity.
Qed.

(** X21.  A "head_branch" that is present but not a string (the service gives
    null for some runs), or a run that is not a mapping: [infer_config]
    raises [AttributeError], whatever the workflow file. *)
Theorem infer_config_branch_not_a_string (run : pyvalue) :
  (forall d, run <> PyDict d) \/
  (exists d v, run = PyDict d /\ d !! "head_branch" = Some v /\ forall b, v <> PyStr b) ->
  infer_config run = Raise AttributeError.
Proof.
  intros [Hrun | (d & v & -> & Hv & Hstr)].
  - destruct run; try reflexivity. destruct (Hrun d). reflexivity.
  - unfold infer_config, get. cbn [mbind result_mbind result_bind].
    rewrite Hv. cbn [default from_option id].
    destruct v; try reflexivity. destruct (Hstr s). reflexivity.
Qed.

Lemma slice_from_no_char (c : ascii) (n : nat) (s : string) :
  Str.has_char c s = false -> Str.has_char c (Str.slice_from n s) = false.
Proof.
  revert s. induction n as [|n IH]; intros s H; [exact H|].
  destruct s as [|c' s]; [reflexivity|]. cbn [Str.slice_from].
  apply IH. cbn in H. apply orb_false_iff in H. tauto.
Qed.

Lemma first_py_token (parts : list string) :
  first_py parts = "" \/
  exists part, In part parts /\ part = "py" +:+ first_py parts.
Proof.
  induction parts as [|part parts IH]; [left; reflexivity|].
  rewrite first_py_cons. destruct (Str.startswith part "py") eqn:E.
  - right. exists part. split; [left; reflexivity|].
    destruct (StrFacts.startswith_inv _ _ E) as [r ->].
    reflexivity.
  - destruct IH as [IH | (p & Hin & Hp)]; [left; exact IH|].
    right. exists p. split; [right; exact Hin | exact Hp].
Qed.

(** X22.  For every name, [infer_python_version] returns a version, and the
    version holds no "-"; it is empty or what follows "py" in one of the
    pieces of the name between dashes. *)
Theorem infer_python_version_within_a_token (name : string) :
  exists v,
    infer_python_version (PyStr name) = Ok v /\
    Str.has_char "-" v = false /\
    (v = "" \/ exists before after,
                 Str.split name "-" = before ++ ("py" +:+ v) :: after).
Proof.
  eexists. split; [reflexivity|].
  destruct (StrFacts.join_split "-" name) as (_ & Hdash & _).
  destruct (first_py_token (Str.split name "-")) as [-> | (part & Hin & Hpart)].
  - split; [reflexivity | left; reflexivity].
  - split.
    + rewrite Forall_forall in Hdash.
      assert (Hp : Str.has_char "-" part = false) by (apply Hdash, list_elem_of_In, Hin).
      rewrite Hpart in Hp. clear -Hp. cbn in Hp. exact Hp.
    + right. apply in_split in Hin as (before & after & Hsplit).
      exists before, after. rewrite Hsplit at 1. rewrite <- Hpart. reflexivity.
Qed.

(** ** Filtering the artifacts of a run *)

Lemma ascii_lower_app (a b : string) :
  Str.ascii_lower (a +:+ b) = Str.ascii_lower a +:+ Str.ascii_lower b.
Proof.
  induction a as [|c a IH]; [reflexivity|].
  change (String (Str.ascii_lower_char c) (Str.ascii_lower (a +:+ b)) =
          String (Str.ascii_lower_char c) (Str.ascii_lower a +:+ Str.ascii_lower b)).
  f_equal. exact IH.
Qed.

Lemma contains_middle (pre m post : string) : Str.contains (pre +:+ m +:+ post) m = true.
Proof.
  induction pre as [|c pre IH].
  - change ("" +:+ m +:+ post) with (m +:+ post).
    assert (H : forall s, Str.contains s m = true \/ Str.startswith s m = false).
    { intros s. destruct s; cbn [Str.contains]; destruct (Str.startswith _ m); auto. }
    destruct (H (m +:+ post)) as [Hc | Hs]; [exact Hc|].
    rewrite StrFacts.startswith_app in Hs. discriminate.
  - change (String c pre +:+ m +:+ post) with (String c (pre +:+ m +:+ post)).
    cbn [Str.contains]. rewrite IH. apply orb_true_r.
Qed.

Section Filtering.
Context {P : Platform}.

Lemma is_eco_named (a : pyvalue) (n : string) :
  artifact_named a n ->
  is_eco a = Ok (eco_marked a) /\ eco_marked a = Str.contains (str_lower n) "eco-ci".
Proof.
  intros (d & -> & Hn). unfold is_eco, eco_marked, getitem.
  cbn [mbind result_mbind result_bind]. rewrite Hn. split; reflexivity.
Qed.

Lemma filter_eco_app (before rest : list pyvalue) :
  Forall (fun a => exists n, artifact_named a n) before ->
  filter_eco (before ++ rest) =
  match filter_eco rest with
  | Ok kept => Ok (List.filter eco_marked before ++ kept)
  | Raise e => Raise e
  end.
Proof.
  induction 1 as [|a before [n Ha] _ IH].
  - cbn [app]. destruct (filter_eco rest); reflexivity.
  - cbn [app filter_eco List.filter]. destruct (is_eco_named a n Ha) as [-> _].
    cbn [mbind result_mbind result_bind]. rewrite IH.
    destruct (filter_eco rest); [|reflexivity].
    cbn [result_bind]. destruct (eco_marked a); reflexivity.
Qed.

(** X23.  When every artifact of the listing is a mapping with a string "name",
    the comprehension keeps, in their order, exactly those whose name holds
    "eco-ci" once [str.lower] has lowered it.  On names of ASCII characters,
    where lowering changes the letters A to Z and nothing else, a name that
    holds the marker in any mix of upper and lower case, anywhere in it, is
    kept. *)
Theorem filter_eco_keeps_marked (artifacts : list pyvalue) :
  Forall (fun a => exists n, artifact_named a n) artifacts ->
  filter_eco artifacts = Ok (List.filter eco_marked artifacts) /\
  (forall a n, artifact_named a n ->
               eco_marked a = Str.contains (str_lower n) "eco-ci") /\
  ((forall n, Str.is_ascii n = true -> str_lower n = Str.ascii_lower n) ->
   forall a pre m post,
     artifact_named a (pre +:+ m +:+ post) ->
     Str.is_ascii (pre +:+ m +:+ post) = true ->
     Str.ascii_lower m = "eco-ci" ->
     eco_marked a = true).
Proof.
  intros Hnamed. split; [|split].
  - pose proof (filter_eco_app artifacts [] Hnamed) as H.
    rewrite app_nil_r in H. cbn [filter_eco] in H. rewrite app_nil_r in H. exact H.
  - intros a n Ha. apply (is_eco_named a n Ha).
  - intros Hlower a pre m post Ha Hascii Hm.
    destruct (is_eco_named a _ Ha) as [_ ->].
    rewrite (Hlower _ Hascii), !ascii_lower_app, Hm. apply contains_middle.
Qed.

(** X24.  One artifact without a usable name fails the whole listing, marked or
    not, and the artifacts before it are not kept either: [KeyError] for a
    mapping without "name", [AttributeError] for a name that is not a
    string, [TypeError] for an entry that is not a mapping. *)
Theorem filter_eco_unusable_name (before after : list pyvalue) (a : pyvalue) :
  Forall (fun a => exists n, artifact_named a n) before ->
  (forall d, a = PyDict d -> d !! "name" = None ->
     filter_eco (before ++ a :: after) = Raise (KeyError "name")) /\
  (forall d v, a = PyDict d -> d !! "name" = Some v -> (forall n, v <> PyStr n) ->
     filter_eco (before ++ a :: after) = Raise AttributeError) /\
  ((forall d, a <> PyDict d) ->
     filter_eco (before ++ a :: after) = Raise TypeError).
Proof.
  intros Hbefore. rewrite (filter_eco_app before (a :: after) Hbefore).
  cbn [filter_eco]. unfold is_eco, getitem. cbn [mbind result_mbind result_bind].
  split; [|split].
  - intros d -> Hn. rewrite Hn. reflexivity.
  - intros d v -> Hn Hv. rewrite Hn. cbn [result_bind].
    destruct v; try reflexivity. destruct (Hv s). reflexivity.
  - intros Ha. destruct a; try reflexivity. destruct (Ha d). reflexivity.
Qed.

End Filtering.

(** ** Listing and processing runs *)

Lemma for_each_app {A : Type} (l1 l2 : list A) (body : A -> M unit) (s : state) :
  for_each (l1 ++ l2) body s =
  match for_each l1 body s with
  | (Done _, s1) => for_each l2 body s1
  | other => other
  end.
Proof.
  revert s. induction l1 as [|x l1 IH]; intros s; [reflexivity|].
  cbn [app for_each]. unfold mbind, M_bind, bind.
  destruct (body x s) as [[[]| |] s1]; [apply IH | reflexivity | reflexivity].
Qed.

Section Runs.
Context {P : Platform}.

Lemma api_get_ok (url : list piece) (params : option (gmap string pyvalue))
    (s : state) (resp : response) (data : pyvalue) :
  env_truthy GITHUB_TOKEN = true ->
  env_truthy GITHUB_REPO = true ->
  requests_get (trace s) (api_request url params) = Ok resp ->
  status_code resp = 200 ->
  resp_json resp = Ok data ->
  api_get url params s = (Done data, log s [EvGet (api_request url params)]).
Proof.
  intros Ht Hr Hresp Hstatus Hjson. unfold api_get.
  rewrite (api_get_attempt _ url params s resp Ht Hr Hresp).
  unfold raise_for_status. rewrite Hstatus, Hjson. reflexivity.
Qed.

(** X9.  [list_artifacts] asks once, without parameters, so it sees one page of
    the listing as the service cuts it; it returns what the answer holds
    under "artifacts", and the empty list when the answer has no such key. *)
Theorem list_artifacts_one_request (run_id : pyvalue) (s : state)
    (resp : response) (body : gmap string pyvalue) :
  env_truthy GITHUB_TOKEN = true ->
  env_truthy GITHUB_REPO = true ->
  requests_get (trace s) (api_request (artifacts_url run_id) None) = Ok resp ->
  status_code resp = 200 ->
  resp_json resp = Ok (PyDict body) ->
  list_artifacts run_id s =
    (Done (default (PyList []) (body !! "artifacts")),
     log s [EvGet (api_request (artifacts_url run_id) None)]) /\
  req_params (api_request (artifacts_url run_id) None) = None /\
  (body !! "artifacts" = None ->
   fst (list_artifacts run_id s) = Done (PyList [])).
Proof.
  intros Ht Hr Hresp Hstatus Hjson.
  assert (Hrun : list_artifacts run_id s =
    (Done (default (PyList []) (body !! "artifacts")),
     log s [EvGet (api_request (artifacts_url run_id) None)])).
  { unfold list_artifacts. fold (artifacts_url run_id).
    erewrite bind_done by (apply (api_get_ok _ None s resp _ Ht Hr Hresp Hstatus Hjson)).
    reflexivity. }
  split; [exact Hrun|]. split; [reflexivity|].
  intros Hnone. rewrite Hrun, Hnone. reflexivity.
Qed.

(** X25.  A run none of whose artifacts carries the marker: the run is announced,
    its artifacts are listed, the absence is reported, and the loop goes on
    to the next run; nothing is downloaded and [all_rows] gains no row. *)
Theorem process_run_without_eco_artifacts (run : gmap string pyvalue)
    (run_id : pyvalue) (config : string) (s : state) (resp : response)
    (body : gmap string pyvalue) (artifacts : list pyvalue) :
  let announce :=
    EvPrint stdout [Lit "  Run #"; Fmt run_id; Lit " | branch=";
                    Fmt (default (PyStr "unknown") (run !! "head_branch"));
                    Lit " | config="; Lit config; Lit " | workflow=";
                    Fmt (default (PyStr "unknown") (run !! "name"))] in
  env_truthy GITHUB_TOKEN = true ->
  env_truthy GITHUB_REPO = true ->
  run !! "id" = Some run_id ->
  infer_config (PyDict run) = Ok config ->
  requests_get (trace s ++ [announce]) (api_request (artifacts_url run_id) None) = Ok resp ->
  status_code resp = 200 ->
  resp_json resp = Ok (PyDict body) ->
  default (PyList []) (body !! "artifacts") = PyList artifacts ->
  Forall (fun a => exists n, artifact_named a n) artifacts ->
  Forall (fun a => eco_marked a = false) artifacts ->
  process_run (PyDict run) s =
    (Done tt,
     log s [announce;
            EvGet (api_request (artifacts_url run_id) None);
            EvPrint stdout [Lit "    No Eco-CI artifacts found for run #"; Fmt run_id]]).
Proof.
  intros announce Ht Hr Hid Hconfig Hresp Hstatus Hjson Hlist Hnamed Hnone.
  unfold process_run, getitem, get. rewrite Hid, Hconfig, !lift_ok_bind.
  erewrite bind_done by reflexivity.
  unfold list_artifacts. fold (artifacts_url run_id).
  erewrite bind_done.
  2:{ erewrite bind_done
        by (apply (api_get_ok _ None (log s [announce]) resp _ Ht Hr Hresp
                     Hstatus Hjson)).
      unfold get. rewrite Hlist. reflexivity. }
  cbn [iterate]. rewrite lift_ok_bind.
  pose proof (filter_eco_app artifacts [] Hnamed) as Hfilter.
  rewrite app_nil_r in Hfilter. cbn [filter_eco] in Hfilter.
  rewrite app_nil_r, (filter_none _ _ Hnone) in Hfilter.
  rewrite Hfilter, lift_ok_bind. unfold print, emit. rewrite !log_log. reflexivity.
Qed.

(** X26.  A run without "id" ends the collection with [KeyError]: the runs after
    it are not processed, and nothing is requested for it. *)
Theorem collection_stops_at_run_without_id (before after : list pyvalue)
    (run : gmap string pyvalue) (s s1 : state) :
  for_each before process_run s = (Done tt, s1) ->
  run !! "id" = None ->
  for_each (before ++ PyDict run :: after) process_run s =
    (Raised (KeyError "id"), s1).
Proof.
  intros Hbefore Hid. rewrite for_each_app, Hbefore.
  cbn [for_each]. erewrite bind_raised; [reflexivity|].
  unfold process_run, getitem. rewrite Hid. reflexivity.
Qed.

End Runs.

(** ** [paginate] beside its main path *)

Section MorePagination.
Context {P : Platform}.
Variables (url : list piece) (key : string) (params : option (gmap string pyvalue)).

Lemma paginate_loop_step (fuel : nat) (ps : gmap string pyvalue)
    (results : list pyvalue) (i : nat) (s : state) (resp : response)
    (body : gmap string pyvalue) (items : list pyvalue) :
  env_truthy GITHUB_TOKEN = true ->
  env_truthy GITHUB_REPO = true ->
  (forall v, <["page" := v]> ps = <["page" := v]> (base_params params)) ->
  requests_get (trace s) (page_request url params i) = Ok resp ->
  status_code resp = 200 ->
  resp_json resp = Ok (PyDict body) ->
  iterate (default (PyList []) (body !! key)) = Ok items ->
  paginate_loop (S fuel) url key ps results (Z.of_nat i) s =
    (if (length items <? 100)%nat then mret (results ++ items)
     else paginate_loop fuel url key (<["page" := PyInt (Z.of_nat i)]> ps)
            (results ++ items) (Z.of_nat (S i)))
      (log s [EvGet (page_request url params i)]).
Proof.
  intros Ht Hr Hps Hresp Hstatus Hjson Hitems. cbn [paginate_loop].
  erewrite bind_done.
  2:{ rewrite Hps. apply (api_get_ok url _ s resp _ Ht Hr Hresp Hstatus Hjson). }
  unfold get. rewrite lift_ok_bind, Hitems, lift_ok_bind.
  replace (Z.of_nat i + 1) with (Z.of_nat (S i)) by lia. reflexivity.
Qed.

Lemma paginate_loop_full_pages (pages : nat -> list pyvalue) (n : nat) :
  env_truthy GITHUB_TOKEN = true ->
  env_truthy GITHUB_REPO = true ->
  forall (fuel i : nat) (ps : gmap string pyvalue) (results : list pyvalue) (s : state),
    (forall v, <["page" := v]> ps = <["page" := v]> (base_params params)) ->
    (forall j, (i <= j < i + n)%nat -> (100 <= length (pages j))%nat) ->
    (forall tr j, (i <= j < i + n)%nat ->
                  exists resp, requests_get tr (page_request url params j) = Ok resp /\
                               serves resp key (pages j)) ->
    exists ps',
      (forall v, <["page" := v]> ps' = <["page" := v]> (base_params params)) /\
      paginate_loop (n + fuel) url key ps results (Z.of_nat i) s =
      paginate_loop fuel url key ps' (results ++ concat (map pages (seq i n)))
        (Z.of_nat (i + n))
        (log s (map (fun j => EvGet (page_request url params j)) (seq i n))).
Proof.
  intros Ht Hr. induction n as [|n IH]; intros fuel i ps results s Hps Hfull Hserve.
  - exists ps. split; [exact Hps|].
    cbn [seq map concat Nat.add]. rewrite app_nil_r, Nat.add_0_r, log_nil. reflexivity.
  - destruct (Hserve (trace s) i ltac:(lia)) as (resp & Hresp & Hstatus & body & Hjson & Hbody).
    destruct (IH fuel (S i) (<["page" := PyInt (Z.of_nat i)]> ps) (results ++ pages i)
                (log s [EvGet (page_request url params i)])) as (ps' & Hps' & Hrun).
    + intros v. rewrite insert_insert_eq. apply Hps.
    + intros j Hj. apply Hfull. lia.
    + intros tr j Hj. apply Hserve. lia.
    + exists ps'. split; [exact Hps'|].
      change (S n + fuel)%nat with (S (n + fuel)).
      rewrite (paginate_loop_step (n + fuel) ps results i s resp body (pages i)
                 Ht Hr Hps Hresp Hstatus Hjson) by (rewrite Hbody; reflexivity).
      replace (length (pages i) <? 100)%nat with false
        by (symmetry; apply Nat.ltb_ge, Hfull; lia).
      rewrite Hrun, log_log. cbn [seq map concat].
      rewrite <- app_assoc. replace (S i + n)%nat with (i + S n)%nat by lia. reflexivity.
Qed.

(** X5.  After full pages, an answer that lacks the key counts as an empty page:
    [paginate] stops there and returns the full pages it has, having asked
    for each page once. *)
Theorem paginate_missing_key_ends (pages : nat -> list pyvalue) (n fuel : nat)
    (s : state) (resp : response) (body : gmap string pyvalue) :
  env_truthy GITHUB_TOKEN = true ->
  env_truthy GITHUB_REPO = true ->
  (n < fuel)%nat ->
  (forall j, (1 <= j < 1 + n)%nat -> (100 <= length (pages j))%nat) ->
  (forall tr j, (1 <= j < 1 + n)%nat ->
                exists resp, requests_get tr (page_request url params j) = Ok resp /\
                             serves resp key (pages j)) ->
  (forall tr, requests_get tr (page_request url params (1 + n)) = Ok resp) ->
  status_code resp = 200 ->
  resp_json resp = Ok (PyDict body) ->
  body !! key = None ->
  paginate fuel url key params s =
    (Done (concat (map pages (seq 1 n))),
     log s (map (fun j => EvGet (page_request url params j)) (seq 1 (S n)))).
Proof.
  intros Ht Hr Hfuel Hfull Hserve Hlast Hstatus Hjson Hkey. unfold paginate.
  destruct fuel as [|fuel]; [lia|].
  replace (S fuel) with (n + S (fuel - n))%nat by lia.
  destruct (paginate_loop_full_pages pages n Ht Hr (S (fuel - n)) 1
              (base_params params) [] s (fun v => eq_refl) Hfull Hserve)
    as (ps' & Hps' & Hrun).
  change 1 with (Z.of_nat 1). unfold base_params in Hrun. rewrite Hrun.
  rewrite (paginate_loop_step (fuel - n) ps' _ (1 + n) _ resp body []
             Ht Hr Hps' (Hlast _) Hstatus Hjson) by (rewrite Hkey; reflexivity).
  cbn [length Nat.ltb Nat.leb]. unfold mret, M_ret, ret.
  rewrite log_log, app_nil_r, app_nil_l.
  replace (seq 1 (S n)) with (seq 1 n ++ [(1 + n)%nat]) by (symmetry; apply seq_S).
  rewrite map_app. reflexivity.
Qed.

(** X6.  After full pages, an answer with an error status: [HTTPError] leaves
    [paginate], and the pages gathered so far are lost with it. *)
Theorem paginate_error_loses_pages (pages : nat -> list pyvalue) (n fuel : nat)
    (s : state) (resp : response) :
  env_truthy GITHUB_TOKEN = true ->
  env_truthy GITHUB_REPO = true ->
  (n < fuel)%nat ->
  (forall j, (1 <= j < 1 + n)%nat -> (100 <= length (pages j))%nat) ->
  (forall tr j, (1 <= j < 1 + n)%nat ->
                exists resp, requests_get tr (page_request url params j) = Ok resp /\
                             serves resp key (pages j)) ->
  (forall tr, requests_get tr (page_request url params (1 + n)) = Ok resp) ->
  rate_limited resp = false ->
  400 <= status_code resp < 600 ->
  paginate fuel url key params s =
    (Raised (HTTPError (status_code resp)),
     log s (map (fun j => EvGet (page_request url params j)) (seq 1 (S n)))).
Proof.
  intros Ht Hr Hfuel Hfull Hserve Hlast Hlim Hstatus. unfold paginate.
  destruct fuel as [|fuel]; [lia|].
  replace (S fuel) with (n + S (fuel - n))%nat by lia.
  destruct (paginate_loop_full_pages pages n Ht Hr (S (fuel - n)) 1
              (base_params params) [] s (fun v => eq_refl) Hfull Hserve)
    as (ps' & Hps' & Hrun).
  change 1 with (Z.of_nat 1). unfold base_params in Hrun. rewrite Hrun.
  cbn [paginate_loop]. rewrite Hps'.
  rewrite (bind_raised _ _ _
             (log (log s (map (fun j => EvGet (page_request url params j)) (seq 1 n)))
                  [EvGet (page_request url params (1 + n))])
             (HTTPError (status_code resp))).
  - rewrite log_log.
    replace (seq 1 (S n)) with (seq 1 n ++ [(1 + n)%nat]) by (symmetry; apply seq_S).
    rewrite map_app. reflexivity.
  - unfold api_get. rewrite (api_get_attempt _ url _ _ resp Ht Hr (Hlast _)).
    unfold rate_limited in Hlim. rewrite Hlim. unfold raise_for_status.
    replace ((400 <=? status_code resp) && (status_code resp <? 600)) with true
      by (symmetry; apply andb_true_iff; split; [apply Z.leb_le | apply Z.ltb_lt]; lia).
    reflexivity.
Qed.

(** X7.  A service whose every page is full: [paginate] never returns.  With
    fuel for [fuel] pages it has asked for pages 1 to [fuel], in order, and
    is still going. *)
Theorem paginate_full_pages_forever (pages : nat -> list pyvalue) :
  env_truthy GITHUB_TOKEN = true ->
  env_truthy GITHUB_REPO = true ->
  (forall j, (100 <= length (pages j))%nat) ->
  (forall tr j, exists resp, requests_get tr (page_request url params j) = Ok resp /\
                             serves resp key (pages j)) ->
  forall fuel s,
    paginate fuel url key params s =
      (OutOfFuel, log s (map (fun j => EvGet (page_request url params j)) (seq 1 fuel))).
Proof.
  intros Ht Hr Hfull Hserve fuel s. unfold paginate.
  destruct (paginate_loop_full_pages pages fuel Ht Hr 0 1
              (base_params params) [] s (fun v => eq_refl)
              (fun j _ => Hfull j) (fun tr j _ => Hserve tr j))
    as (ps' & _ & Hrun).
  change 1 with (Z.of_nat 1). unfold base_params in Hrun.
  rewrite Nat.add_0_r in Hrun. rewrite Hrun. reflexivity.
Qed.

End MorePagination.

Section MoreRuns.
Context {P : Platform}.

(** X8.  [list_workflow_runs] asks for the completed runs only, a hundred to a
    page: with full pages 1 to [n] and a short page after them it returns
    the runs of all those pages in order and prints their number, and the
    parameters of the request for page [j] are "status" completed, "per_page"
    100 and "page" [j], and no other. *)
Theorem list_workflow_runs_completed (pages : nat -> list pyvalue) (n fuel : nat)
    (s : state) :
  let query := Some {["status" := PyStr "completed"]} in
  let runs := concat (map pages (seq 1 (S n))) in
  env_truthy GITHUB_TOKEN = true ->
  env_truthy GITHUB_REPO = true ->
  (n < fuel)%nat ->
  (forall j, (1 <= j < 1 + n)%nat -> (100 <= length (pages j))%nat) ->
  (length (pages (1 + n)) < 100)%nat ->
  (forall tr j, (1 <= j <= 1 + n)%nat ->
                exists resp, requests_get tr (page_request runs_url query j) = Ok resp /\
                             serves resp "workflow_runs" (pages j)) ->
  list_workflow_runs fuel s =
    (Done runs,
     log s (map (fun j => EvGet (page_request runs_url query j)) (seq 1 (S n)) ++
            [EvPrint stdout [Lit "Found "; Fmt (PyInt (Z.of_nat (length runs)));
                             Lit " completed workflow runs."]])) /\
  (forall j, req_params (page_request runs_url query j) =
             Some (list_to_map [("page", PyInt (Z.of_nat j)); ("per_page", PyInt 100);
                                ("status", PyStr "completed")])).
Proof.
  intros query runs Ht Hr Hfuel Hfull Hshort Hserve. split.
  - unfold list_workflow_runs. fold runs_url. fold query. unfold paginate.
    destruct fuel as [|fuel]; [lia|].
    replace (S fuel) with (n + S (fuel - n))%nat by lia.
    destruct (paginate_loop_full_pages runs_url "workflow_runs" query pages n Ht Hr
                (S (fuel - n)) 1 (base_params query) [] s (fun v => eq_refl) Hfull
                (fun tr j Hj => Hserve tr j ltac:(lia)))
      as (ps' & Hps' & Hrun).
    destruct (Hserve (trace (log s (map (fun j => EvGet (page_request runs_url query j))
                                        (seq 1 n)))) (1 + n)%nat ltac:(lia))
      as (resp & Hresp & Hstatus & body & Hjson & Hbody).
    erewrite bind_done.
    2:{ change 1 with (Z.of_nat 1). unfold base_params in Hrun. rewrite Hrun.
        rewrite (paginate_loop_step runs_url "workflow_runs" query (fuel - n) ps' _
                   (1 + n) _ resp body (pages (1 + n)%nat) Ht Hr Hps' Hresp Hstatus Hjson)
          by (rewrite Hbody; reflexivity).
        apply Nat.ltb_lt in Hshort. rewrite Hshort. reflexivity. }
    assert (Hcat : ([] ++ concat (map pages (seq 1 n))) ++ pages (1 + n)%nat = runs).
    { subst runs. rewrite (seq_S n 1), map_app, concat_app. cbn [map concat app].
      rewrite app_nil_r. reflexivity. }
    rewrite Hcat. erewrite bind_done by reflexivity.
    unfold mret, M_ret, ret. rewrite !log_log.
    rewrite (seq_S n 1), map_app. cbn [map]. rewrite <- app_assoc. reflexivity.
  - intros j. reflexivity.
Qed.

End MoreRuns.

(** ** The program as a whole *)

Lemma rows_labelled_extends (ok : event -> bool) (s s' : state) :
  extends_by ok s s' -> rows_labelled s -> rows_labelled s'.
Proof. intros (evs & -> & _) H. exact H. Qed.

Lemma first_py_no_dash (name : string) :
  Str.has_char "-" (first_py (Str.split name "-")) = false.
Proof.
  destruct (StrFacts.join_split "-" name) as (_ & Hdash & _).
  destruct (first_py_token (Str.split name "-")) as [-> | (part & Hin & Hpart)];
    [reflexivity|].
  rewrite Forall_forall in Hdash.
  assert (Hp : Str.has_char "-" part = false) by (apply Hdash, list_elem_of_In, Hin).
  rewrite Hpart in Hp. exact Hp.
Qed.

Section Program.
Context {P : Platform}.

Lemma process_artifact_labelled (run run_id : pyvalue) (config : string)
    (workflow_name branch artifact : pyvalue) (n : string) :
  config_label config ->
  getitem artifact "name" = Ok (PyStr n) ->
  hoare rows_labelled
    (process_artifact run run_id config workflow_name branch artifact) rows_labelled.
Proof.
  intros Hconfig Hn. unfold process_artifact. rewrite Hn, lift_ok_bind.
  eapply hoare_bind;
    [apply (hoare_plain _ _ (rows_labelled_extends plain)); emits_auto | trivial | intros _].
  eapply hoare_bind;
    [apply (hoare_plain _ _ (rows_labelled_extends plain)), download_artifact_plain
    | trivial | intros [raw|]]; [|intros s Hs; exact Hs].
  eapply hoare_bind;
    [apply (hoare_plain _ _ (rows_labelled_extends plain)), parse_eco_ci_json_plain
    | trivial | intros rows].
  intros s Hs.
  erewrite bind_done by reflexivity.
  cbn [infer_python_version]. rewrite lift_ok_bind, for_each_append_row.
  unfold rows_labelled. cbn [snd all_rows].
  apply Forall_app. split; [exact Hs|].
  apply Forall_forall. intros row Hrow. apply list_elem_of_In, in_map_iff in Hrow.
  destruct Hrow as (r & <- & _). split; [exact Hconfig | apply first_py_no_dash].
Qed.

Lemma process_run_labelled (run : pyvalue) :
  hoare rows_labelled (process_run run) rows_labelled.
Proof.
  unfold process_run.
  destruct (getitem run "id") as [run_id|e];
    [rewrite lift_ok_bind | rewrite lift_raise_bind; apply hoare_raise].
  destruct (get run "head_branch" (PyStr "unknown")) as [branch|e];
    [rewrite lift_ok_bind | rewrite lift_raise_bind; apply hoare_raise].
  destruct (get run "name" (PyStr "unknown")) as [workflow_name|e];
    [rewrite lift_ok_bind | rewrite lift_raise_bind; apply hoare_raise].
  destruct (infer_config run) as [config|e] eqn:Hconfig;
    [rewrite lift_ok_bind | rewrite lift_raise_bind; apply hoare_raise].
  pose proof (infer_config_range run config Hconfig) as Hlabel.
  eapply hoare_bind;
    [apply (hoare_plain _ _ (rows_labelled_extends plain)); emits_auto | trivial | intros _].
  eapply hoare_bind;
    [apply (hoare_plain _ _ (rows_labelled_extends plain)), list_artifacts_plain | trivial
    | intros artifacts].
  destruct (iterate artifacts) as [elements|e];
    [rewrite lift_ok_bind | rewrite lift_raise_bind; apply hoare_raise].
  destruct (filter_eco elements) as [eco_artifacts|e] eqn:Heco;
    [rewrite lift_ok_bind | rewrite lift_raise_bind; apply hoare_raise].
  pose proof (filter_eco_names _ _ Heco) as Hnames.
  destruct eco_artifacts as [|a eco_artifacts].
  - apply (hoare_plain _ _ (rows_labelled_extends plain)). emits_auto.
  - apply hoare_for_each.
    eapply Forall_impl; [exact Hnames|].
    intros artifact [n Hn]. cbn beta.
    eapply process_artifact_labelled; eassumption.
Qed.

Lemma collect_labelled (fuel : nat) : hoare rows_labelled (collect fuel) rows_labelled.
Proof.
  unfold collect.
  eapply hoare_bind;
    [apply (hoare_plain _ _ (rows_labelled_extends plain)); emits_auto | trivial | intros _].
  eapply hoare_bind;
    [apply (hoare_plain _ _ (rows_labelled_extends plain)); emits_auto | trivial | intros _].
  eapply hoare_bind;
    [apply (hoare_plain _ _ (rows_labelled_extends plain)), list_workflow_runs_plain
    | trivial | intros runs].
  eapply (hoare_bind rows_labelled rows_labelled); [ | trivial | intros _].
  - intros s _. constructor.
  - apply hoare_for_each, Forall_forall. intros run _. apply process_run_labelled.
Qed.

(** X28.  At the end of every execution, however it ends, every row of [all_rows]
    has one of the five labels as its config, and a python_version without
    "-". *)
Theorem rows_are_labelled (fuel : nat) :
  Forall (fun r => config_label (row_config r) /\
                   Str.has_char "-" (row_python_version r) = false)
         (all_rows (snd (program fuel))).
Proof.
  change (rows_labelled (snd (program fuel))). unfold program, main.
  apply (hoare_bind rows_labelled rows_labelled rows_labelled); [| trivial | | constructor].
  - apply (hoare_plain _ _ (rows_labelled_extends plain)). emits_auto.
  - intros _.
    apply (hoare_bind rows_labelled rows_labelled rows_labelled _ _ (collect_labelled fuel));
      [trivial|].
    intros _ s Hs. exact (rows_labelled_extends _ _ _ (report_events s) Hs).
Qed.

Lemma written_rows_app (tr1 tr2 : list event) :
  written_rows (tr1 ++ tr2) = written_rows tr1 ++ written_rows tr2.
Proof. apply omap_app. Qed.

Lemma written_rows_map (rows : list OutputRow) :
  written_rows (map EvWriteRow rows) = rows.
Proof. induction rows as [|r rows IH]; [reflexivity|]. cbn. f_equal. exact IH. Qed.

Lemma written_rows_nothing (tr : list event) :
  Forall (fun e => file_write e = false) tr -> written_rows tr = [].
Proof.
  induction 1 as [|e tr He _ IH]; [reflexivity|].
  destruct e; try discriminate; exact IH.
Qed.

(** [writerows] writes an initial segment of the rows, all of them when it
    returns. *)
Lemma writerows_shape (rows : list OutputRow) (s : state) :
  exists done rest,
    rows = done ++ rest /\
    snd (writerows rows s) = log s (map EvWriteRow done) /\
    (fst (writerows rows s) = Done tt -> rest = []).
Proof.
  unfold writerows. revert s. induction rows as [|row rows IH]; intros s.
  - exists [], []. cbn. rewrite log_nil. repeat split.
  - cbn [for_each].
    destruct (file_error (trace s) (EvWriteRow row)) as [e|] eqn:E.
    + erewrite bind_raised by (apply file_op_refused, E).
      exists [], (row :: rows). cbn. rewrite log_nil. repeat split. discriminate.
    + erewrite bind_done by (apply file_op_accepted, E).
      destruct (IH (log s [EvWriteRow row])) as (done & rest & -> & Hs & Hd).
      exists (row :: done), rest. split; [reflexivity|]. split; [|exact Hd].
      rewrite Hs, log_log. reflexivity.
Qed.

(** The closing neither writes a row nor turns a failure into a return. *)
Lemma finally_close_shape (body : M unit) (path : string) (s s1 : state)
    (o : outcome unit) :
  body s = (o, s1) ->
  (snd (finally body (file_op (EvClose path)) s) = s1 \/
   snd (finally body (file_op (EvClose path)) s) = log s1 [EvClose path]) /\
  (fst (finally body (file_op (EvClose path)) s) = Done tt -> o = Done tt).
Proof.
  intros H. unfold finally, file_op. rewrite H.
  destruct o as [[]|e|]; destruct (file_error (trace s1) (EvClose path));
    cbn [fst snd]; split; auto; discriminate.
Qed.

(** What [report] does to the file: from a state in which no row was
    written, it writes an initial segment of [all_rows], all of it when it
    returns, and then there is at least one row. *)
Lemma report_shape (s : state) :
  written_rows (trace s) = [] ->
  all_rows (snd (report s)) = all_rows s /\
  exists rest,
    written_rows (trace (snd (report s))) ++ rest = all_rows s /\
    (fst (report s) = Done tt -> rest = [] /\ all_rows s <> []).
Proof.
  intros Hnone. unfold report. erewrite bind_done by reflexivity.
  destruct (all_rows s) as [|row rows] eqn:Erows.
  - erewrite bind_done by reflexivity. cbn [sys_exit raise snd fst].
    split; [exact Erows|]. exists []. split; [|discriminate].
    cbn [log trace]. rewrite written_rows_app, Hnone. reflexivity.
  - remember (row :: rows) as collected eqn:Ecollected.
    unfold with_open, writeheader.
    destruct (file_error (trace s) (EvOpenWrite OUTPUT_CSV)) as [e|] eqn:Eopen.
    { erewrite bind_raised
        by (erewrite bind_raised by (apply file_op_refused, Eopen); reflexivity).
      cbn [snd fst]. split; [exact Erows|]. exists collected. rewrite Hnone.
      split; [reflexivity | discriminate]. }
    pose (s0 := log s [EvOpenWrite OUTPUT_CSV]).
    assert (Hbody : exists o s1 done rest,
      (file_op (EvWriteHeader CSV_COLUMNS);; writerows collected) s0 = (o, s1) /\
      collected = done ++ rest /\
      written_rows (trace s1) = done /\
      all_rows s1 = collected /\
      (o = Done tt -> rest = [])).
    { destruct (file_error (trace s0) (EvWriteHeader CSV_COLUMNS)) as [e|] eqn:Eheader.
      - erewrite bind_raised by (apply file_op_refused, Eheader).
        exists (Raised e), s0, [], collected. split; [reflexivity|]. split; [reflexivity|].
        split; [|split; [exact Erows | discriminate]].
        subst s0. cbn [log trace]. rewrite written_rows_app, Hnone. reflexivity.
      - erewrite bind_done by (apply file_op_accepted, Eheader).
        destruct (writerows_shape collected (log s0 [EvWriteHeader CSV_COLUMNS]))
          as (done & rest & Hsplit & Hs & Hd).
        destruct (writerows collected (log s0 [EvWriteHeader CSV_COLUMNS])) as [o s1].
        cbn [fst snd] in Hs, Hd. subst s1.
        exists o, (log (log s0 [EvWriteHeader CSV_COLUMNS]) (map EvWriteRow done)), done, rest.
        split; [reflexivity|]. split; [exact Hsplit|]. split; [|split; [exact Erows | exact Hd]].
        subst s0. cbn [log trace].
        rewrite !written_rows_app, Hnone, written_rows_map. reflexivity. }
    destruct Hbody as (o & s1 & done & rest & Hbody & Hsplit & Hdone & Hall & Hret).
    destruct (finally_close_shape _ OUTPUT_CSV s0 s1 o Hbody) as [Hstate Hfst].
    assert (Hopen : file_op (EvOpenWrite OUTPUT_CSV) s = (Done tt, s0))
      by (apply file_op_accepted, Eopen).
    assert (Hclosed : exists o2 s2,
      (file_op (EvOpenWrite OUTPUT_CSV);;
       finally (file_op (EvWriteHeader CSV_COLUMNS);; writerows collected)
               (file_op (EvClose OUTPUT_CSV))) s = (o2, s2) /\
      written_rows (trace s2) = done /\ all_rows s2 = collected /\
      (o2 = Done tt -> rest = [])).
    { erewrite bind_done by exact Hopen.
      destruct (finally _ _ s0) as [o2 s2]. cbn [fst snd] in Hstate, Hfst.
      exists o2, s2. split; [reflexivity|].
      destruct Hstate as [-> | ->].
      - split; [exact Hdone|]. split; [exact Hall|]. intros H. apply Hret, Hfst, H.
      - cbn [log trace all_rows]. rewrite written_rows_app, Hdone, app_nil_r.
        split; [reflexivity|]. split; [exact Hall|]. intros H. apply Hret, Hfst, H. }
    destruct Hclosed as (o2 & s2 & Hclosed & Hwritten & Hall2 & Hret2).
    destruct o2 as [[]|e|].
    + erewrite bind_done by exact Hclosed. cbn [print emit snd fst log trace all_rows].
      split; [exact Hall2|]. exists rest.
      rewrite written_rows_app, Hwritten, app_nil_r.
      split; [symmetry; exact Hsplit|]. intros _. split; [apply Hret2; reflexivity|].
      rewrite Ecollected. discriminate.
    + erewrite bind_raised by exact Hclosed. cbn [snd fst].
      split; [exact Hall2|]. exists rest. rewrite Hwritten.
      split; [symmetry; exact Hsplit | discriminate].
    + erewrite bind_out_of_fuel by exact Hclosed. cbn [snd fst].
      split; [exact Hall2|]. exists rest. rewrite Hwritten.
      split; [symmetry; exact Hsplit | discriminate].
Qed.

(** X29.  What reaches the output file.  No operation on the file is made
    unless the collection returned; in every execution the rows written are
    an initial segment, in order, of the rows collected; and when the
    program returns they are all of them, at least one.  So an operation
    that the file system refuses can cut the file short, but no row is
    written twice, out of order, or without having been collected. *)
Theorem output_rows_initial_segment (fuel : nat) :
  (fst ((emit (EvMkdir "results");; collect fuel) init) <> Done tt ->
   nothing_written (snd (program fuel))) /\
  (exists rest,
     written_rows (trace (snd (program fuel))) ++ rest = all_rows (snd (program fuel))) /\
  (fst (program fuel) = Done tt ->
   written_rows (trace (snd (program fuel))) = all_rows (snd (program fuel)) /\
   all_rows (snd (program fuel)) <> []).
Proof.
  pose proof (hoare_bind fresh fresh collecting _ _ mkdir_fresh fresh_collecting
                (fun _ => collect_collecting fuel) init fresh_init) as [_ Hw].
  assert (Hrun : program fuel =
    match (emit (EvMkdir "results");; collect fuel) init with
    | (Done _, s1) => report s1
    | (Raised e, s1) => (Raised e, s1)
    | (OutOfFuel, s1) => (OutOfFuel, s1)
    end).
  { unfold program, main. rewrite bind_assoc_run. reflexivity. }
  rewrite Hrun.
  destruct ((emit (EvMkdir "results");; collect fuel) init) as [[[]| |] s1];
    cbn [snd fst] in *.
  - destruct (report_shape s1 (written_rows_nothing _ Hw)) as (Hall & rest & Hrest & Hret).
    split; [congruence|]. rewrite Hall. split.
    + exists rest. exact Hrest.
    + intros Hdone. destruct (Hret Hdone) as [-> Hne].
      rewrite app_nil_r in Hrest. split; assumption.
  - split; [intros _; exact Hw|]. rewrite (written_rows_nothing _ Hw).
    split; [eexists; reflexivity | discriminate].
  - split; [intros _; exact Hw|]. rewrite (written_rows_nothing _ Hw).
    split; [eexists; reflexivity | discriminate].
Qed.

End Program.

(** ** The further properties at work *)


(** Rate-limited once, with a reset header thirty seconds ahead of the
    start: two seconds have passed at the second reading of the clock, so
    [api_get] sleeps twenty-eight seconds, asks again and returns. *)
Example api_get_recovers :
  @api_get (Scenario.github Scenario.limited_once) Demo.listing_url None init =
  (Done (PyDict {["items" := PyList [PyInt 1]]}),
   log init [EvGet (@api_request (Scenario.github Scenario.limited_once)
                      Demo.listing_url None);
             EvTime; EvTime; rate_limit_notice 28; EvSleep 28;
             EvGet (@api_request (Scenario.github Scenario.limited_once)
                      Demo.listing_url None)]).
Proof. vm_compute. reflexivity. Qed.


Lemma api_get_http_error_witness :
  @api_get (Scenario.github Scenario.failing) Demo.listing_url None init =
  (Raised (HTTPError 500),
   log init [EvGet (@api_request (Scenario.github Scenario.failing) Demo.listing_url None)]).
Proof.
  refine (@api_get_http_error (Scenario.github Scenario.failing) Demo.listing_url None
            init (Scenario.answer 500 None ∅) eq_refl eq_refl eq_refl eq_refl _).
  cbn. lia.
Defined.

Lemma api_get_returns_json_witness :
  fst (@api_get Demo.github Demo.listing_url None init) =
  Done (PyDict {["items" := PyList [PyInt 1]]}).
Proof.
  refine (f_equal fst
            (proj1 (@api_get_returns_json Demo.github Demo.listing_url None init
                      (Demo.json_response {["items" := PyList [PyInt 1]]})
                      eq_refl eq_refl eq_refl eq_refl _))).
  left. cbn. lia.
Defined.

Lemma api_get_bad_reset_header_witness :
  fst (@api_get (Scenario.github Scenario.limited_badly) Demo.listing_url None init) =
  Raised (OtherError "ValueError").
Proof.
  exact (f_equal fst
           (@api_get_bad_reset_header (Scenario.github Scenario.limited_badly)
              Demo.listing_url None init (Scenario.answer 429 (Some "soon") ∅) "soon"
              (OtherError "ValueError") eq_refl eq_refl eq_refl eq_refl eq_refl eq_refl)).
Defined.

Lemma download_artifact_falsy_url_witness :
  @download_artifact Demo.github (PyDict Scenario.null_url_artifact) init = (Done None, init).
Proof.
  exact (@download_artifact_falsy_url Demo.github Scenario.null_url_artifact init eq_refl).
Defined.

Lemma download_artifact_checks_credentials_witness :
  fst (@download_artifact (Demo.platform (Some "") (Some "jdoe/httpie-cli-carbon-study"))
         (PyDict Demo.eco_artifact) init) = Raised (SystemExit 1).
Proof.
  exact (f_equal fst
           (@download_artifact_checks_credentials
              (Demo.platform (Some "") (Some "jdoe/httpie-cli-carbon-study"))
              Demo.eco_artifact init eq_refl (or_introl eq_refl))).
Defined.

Lemma download_artifact_ok_witness :
  fst (@download_artifact Demo.github (PyDict Demo.eco_artifact) init) = Done (Some [x01]).
Proof.
  exact (f_equal fst
           (@download_artifact_ok Demo.github Demo.eco_artifact init
              {| status_code := 200; ratelimit_reset := None;
                 resp_json := Raise (JSONDecodeError "Expecting value"); content := [x01] |}
              eq_refl eq_refl eq_refl eq_refl eq_refl)).
Defined.


Lemma download_artifact_request_raises_witness :
  fst (@download_artifact (Scenario.github Scenario.unreachable)
         (PyDict Demo.eco_artifact) init) = Raised (OtherError "ConnectionError").
Proof.
  exact (f_equal fst
           (@download_artifact_request_raises (Scenario.github Scenario.unreachable)
              Demo.eco_artifact init (OtherError "ConnectionError")
              eq_refl eq_refl eq_refl eq_refl)).
Defined.

Lemma parse_eco_ci_json_no_json_member_witness :
  fst (@parse_eco_ci_json Scenario.archives [x03] (PyStr Demo.artifact_name) init) = Done [].
Proof.
  refine (f_equal fst
            (@parse_eco_ci_json_no_json_member Scenario.archives [x03]
               (PyStr Demo.artifact_name) Scenario.no_json init eq_refl _)).
  repeat constructor.
Defined.

Lemma parse_eco_ci_json_damaged_member_witness :
  exists rows,
    fst (@parse_eco_ci_json Scenario.archives [x01] (PyStr Demo.artifact_name) init)
      = Done rows /\
    Forall2 record_for [Demo.object_a; Demo.object_b] rows.
Proof.
  assert (Hobjs : Forall2 (@member_objects Scenario.archives Scenario.damaged)
                     ["a.json"] [[Demo.object_a; Demo.object_b]]).
  { repeat constructor. exists Demo.good_bytes, Demo.payload.
    repeat split. apply (payload_list [Demo.object_a; Demo.object_b]). }
  destruct (@parse_eco_ci_json_damaged_member Scenario.archives [x01]
              (PyStr Demo.artifact_name) Scenario.damaged ["a.json"] [] "c.json"
              [[Demo.object_a; Demo.object_b]] init eq_refl eq_refl Hobjs eq_refl)
    as (rows & Hrun & Hall).
  exists rows. split; [exact (f_equal fst Hrun) | exact Hall].
Defined.

Lemma parse_eco_ci_json_propagates_witness :
  @parse_eco_ci_json Scenario.archives [x02] (PyStr Demo.artifact_name) init =
  (Raised (OtherError "UnicodeDecodeError"), init).
Proof.
  assert (Hobjs : Forall2 (@member_objects Scenario.archives Scenario.undecodable)
                     ["a.json"] [[Demo.object_a; Demo.object_b]]).
  { repeat constructor. exists Demo.good_bytes, Demo.payload.
    repeat split. apply (payload_list [Demo.object_a; Demo.object_b]). }
  refine (proj2 (@parse_eco_ci_json_propagates Scenario.archives [x02]
                   (PyStr Demo.artifact_name) init (OtherError "UnicodeDecodeError") _)
                Scenario.undecodable ["a.json"] "u.json" []
                [[Demo.object_a; Demo.object_b]] eq_refl eq_refl Hobjs (or_introl eq_refl)).
  split; [discriminate | intros msg; discriminate].
Defined.

Lemma parse_eco_ci_json_bad_measurement_witness :
  @parse_eco_ci_json Demo.github [x04] (PyStr Demo.artifact_name) init =
  (Raised AttributeError, init).
Proof.
  refine (@parse_eco_ci_json_bad_measurement Demo.github [x04] (PyStr Demo.artifact_name)
            Demo.numbers_then_broken [] ["b.json"] "m.json" [] Demo.numbers_bytes
            [] (PyInt 5) [] init eq_refl eq_refl _ eq_refl eq_refl _).
  - constructor.
  - intros d. discriminate.
Defined.

Lemma infer_config_label_witness : config_label "C2".
Proof. exact (infer_config_label (PyDict Demo.run7) "C2" eq_refl). Defined.

Lemma infer_config_reads_path_last_witness :
  exists l, infer_config (PyDict (<["path" := PyNone]> Demo.run7)) = Ok l /\
            infer_config (PyDict (delete "path" Demo.run7)) = Ok l.
Proof.
  refine (proj1 (infer_config_reads_path_last Demo.run7 "experiment/c2-pip-cache-v2"
                   PyNone eq_refl) _).
  right. left. right. exists "-v2". reflexivity.
Defined.

Lemma infer_config_branch_not_a_string_witness :
  infer_config (PyDict Scenario.detached_run) = Raise AttributeError.
Proof.
  refine (infer_config_branch_not_a_string (PyDict Scenario.detached_run) (or_intror _)).
  exists Scenario.detached_run, PyNone.
  split; [reflexivity|]. split; [reflexivity|]. intros b. discriminate.
Defined.

Lemma filter_eco_keeps_marked_witness :
  @filter_eco Demo.github
    [PyDict Demo.eco_artifact; PyDict Demo.other_artifact; PyDict Scenario.upper_artifact]
  = Ok [PyDict Demo.eco_artifact; PyDict Scenario.upper_artifact] /\
  @eco_marked Demo.github (PyDict Scenario.upper_artifact) = true.
Proof.
  assert (Hnamed : Forall (fun a => exists n, artifact_named a n)
                     [PyDict Demo.eco_artifact; PyDict Demo.other_artifact;
                      PyDict Scenario.upper_artifact]).
  { repeat constructor.
    - exists Demo.artifact_name, Demo.eco_artifact. split; reflexivity.
    - exists "coverage-report", Demo.other_artifact. split; reflexivity.
    - exists "Results-ECO-CI-py3.12", Scenario.upper_artifact. split; reflexivity. }
  split.
  - exact (proj1 (@filter_eco_keeps_marked Demo.github _ Hnamed)).
  - refine (proj2 (proj2 (@filter_eco_keeps_marked Demo.github _ Hnamed)) _
              (PyDict Scenario.upper_artifact) "Results-" "ECO-CI" "-py3.12" _ _ _).
    + intros n _. reflexivity.
    + exists Scenario.upper_artifact. split; reflexivity.
    + reflexivity.
    + reflexivity.
Defined.

Lemma filter_eco_unusable_name_witness :
  @filter_eco Demo.github [PyDict Demo.eco_artifact; PyDict Scenario.nameless_artifact]
  = Raise (KeyError "name").
Proof.
  refine (proj1 (@filter_eco_unusable_name Demo.github [PyDict Demo.eco_artifact] []
                   (PyDict Scenario.nameless_artifact) _)
                Scenario.nameless_artifact eq_refl eq_refl).
  repeat constructor. exists Demo.artifact_name, Demo.eco_artifact. split; reflexivity.
Defined.

Lemma list_artifacts_one_request_witness :
  fst (@list_artifacts (Scenario.github Scenario.unmarked) (PyInt 8) init) =
  Done (PyList [PyDict Demo.other_artifact]).
Proof.
  exact (f_equal fst
           (proj1 (@list_artifacts_one_request (Scenario.github Scenario.unmarked)
                     (PyInt 8) init
                     (Scenario.answer 200 None
                        {["artifacts" := PyList [PyDict Demo.other_artifact]]})
                     {["artifacts" := PyList [PyDict Demo.other_artifact]]}
                     eq_refl eq_refl eq_refl eq_refl eq_refl))).
Defined.

Lemma process_run_without_eco_artifacts_witness :
  fst (@process_run (Scenario.github Scenario.unmarked) (PyDict Demo.run7) init) = Done tt.
Proof.
  refine (f_equal fst
            (@process_run_without_eco_artifacts (Scenario.github Scenario.unmarked)
               Demo.run7 (PyInt 7) "C2" init
               (Scenario.answer 200 None
                  {["artifacts" := PyList [PyDict Demo.other_artifact]]})
               {["artifacts" := PyList [PyDict Demo.other_artifact]]}
               [PyDict Demo.other_artifact]
               eq_refl eq_refl eq_refl eq_refl eq_refl eq_refl eq_refl eq_refl _ _)).
  - repeat constructor. exists "coverage-report", Demo.other_artifact. split; reflexivity.
  - repeat constructor.
Defined.

Lemma collection_stops_at_run_without_id_witness :
  fst (for_each [PyDict Demo.run7; PyDict Scenario.run_without_id; PyDict Demo.run7]
         (@process_run (Scenario.github Scenario.unmarked)) init)
  = Raised (KeyError "id").
Proof.
  refine (f_equal fst
            (@collection_stops_at_run_without_id (Scenario.github Scenario.unmarked)
               [PyDict Demo.run7] [PyDict Demo.run7] Scenario.run_without_id init
               (snd (for_each [PyDict Demo.run7]
                       (@process_run (Scenario.github Scenario.unmarked)) init))
               _ eq_refl)).
  vm_compute. reflexivity.
Defined.

Lemma paginate_missing_key_ends_witness :
  fst (@paginate Demo.github 1 Demo.listing_url "entries" None init) = Done [].
Proof.
  refine (f_equal fst
            (@paginate_missing_key_ends Demo.github Demo.listing_url "entries" None
               (fun _ => []) 0 1 init
               (Demo.json_response {["items" := PyList (repeat (PyInt 0) 100)]})
               {["items" := PyList (repeat (PyInt 0) 100)]}
               eq_refl eq_refl _ _ _ _ eq_refl eq_refl eq_refl)).
  - lia.
  - intros j Hj. lia.
  - intros tr j Hj. lia.
  - intros tr. reflexivity.
Defined.

Lemma paginate_error_loses_pages_witness :
  fst (@paginate (Scenario.github Scenario.failing_later) 2 Demo.listing_url "items" None init)
  = Raised (HTTPError 500).
Proof.
  refine (f_equal fst
            (@paginate_error_loses_pages (Scenario.github Scenario.failing_later)
               Demo.listing_url "items" None (fun _ => Scenario.full_page) 1 2 init
               (Scenario.answer 500 None ∅) eq_refl eq_refl _ _ _ _ eq_refl _)).
  - lia.
  - intros j Hj. vm_compute. lia.
  - intros tr j Hj. assert (j = 1%nat) as -> by lia.
    eexists. split; [reflexivity|]. split; [reflexivity|].
    eexists. split; reflexivity.
  - intros tr. reflexivity.
  - cbn. lia.
Defined.

Lemma paginate_full_pages_forever_witness :
  fst (@paginate (Scenario.github Scenario.endless) 4 Demo.listing_url "items" None init)
  = OutOfFuel.
Proof.
  refine (f_equal fst
            (@paginate_full_pages_forever (Scenario.github Scenario.endless)
               Demo.listing_url "items" None (fun _ => Scenario.full_page)
               eq_refl eq_refl _ _ 4%nat init)).
  - intros j. vm_compute. lia.
  - intros tr j. eexists. split; [reflexivity|]. split; [reflexivity|].
    eexists. split; reflexivity.
Defined.

Lemma list_workflow_runs_completed_witness :
  fst (@list_workflow_runs Demo.github 1 init) = Done [PyDict Demo.run7].
Proof.
  refine (f_equal fst
            (proj1 (@list_workflow_runs_completed Demo.github
                      (fun _ => [PyDict Demo.run7]) 0 1 init eq_refl eq_refl _ _ _ _))).
  - lia.
  - intros j Hj. lia.
  - cbn. lia.
  - intros tr j Hj. eexists. split; [reflexivity|]. split; [reflexivity|].
    eexists. split; reflexivity.
Defined.

Lemma output_rows_initial_segment_witness :
  exists rest,
    written_rows (trace (snd (@program Scenario.surrogates 3))) ++ rest =
    all_rows (snd (@program Scenario.surrogates 3)).
Proof.
  exact (proj1 (proj2 (@output_rows_initial_segment Scenario.surrogates 3))).
Defined.

Section ArtifactRows.
Context {P : Platform}.

(** X27.  An artifact that is downloaded and parsed: [all_rows] grows by one row
    per record, in the order of the records and after the rows it had; each
    new row carries the run's id, config, workflow and branch as [main]
    read them, the four fields of its record, and the version inferred from
    the artifact's name. *)
Theorem artifact_records_become_rows (run run_id : pyvalue) (config : string)
    (workflow_name branch artifact : pyvalue) (n version : string) (raw : list byte)
    (rows : list MeasurementRecord) (s s1 s2 : state) :
  getitem artifact "name" = Ok (PyStr n) ->
  infer_python_version (PyStr n) = Ok version ->
  download_artifact artifact
    (log s [EvPrint stdout [Lit "    Downloading: "; Fmt (PyStr n)]]) = (Done (Some raw), s1) ->
  parse_eco_ci_json raw (PyStr n) s1 = (Done rows, s2) ->
  fst (process_artifact run run_id config workflow_name branch artifact s) = Done tt /\
  trace (snd (process_artifact run run_id config workflow_name branch artifact s)) = trace s2 /\
  all_rows (snd (process_artifact run run_id config workflow_name branch artifact s)) =
    all_rows s2 ++
    map (fun r => {| row_run_id := run_id; row_config := config;
                     row_workflow := workflow_name; row_branch := branch;
                     row_stage := stage r; row_energy_joules := energy_joules r;
                     row_duration_seconds := duration_seconds r;
                     row_timestamp := timestamp r;
                     row_python_version := version |}) rows.
Proof.
  intros Hn Hversion Hdl Hparse. injection Hversion as <-.
  rewrite (process_artifact_extracts run run_id config workflow_name branch artifact
             n raw rows s s1 s2 Hn Hdl Hparse).
  repeat split.
Qed.

End ArtifactRows.

Lemma artifact_records_become_rows_witness :
  map row_python_version
    (all_rows (snd (@process_artifact Demo.github (PyDict Demo.run7) (PyInt 7) "C2"
                      (PyStr "Tests") (PyStr "experiment/c2-pip-cache-v2")
                      (PyDict Demo.eco_artifact) init)))
  = ["3.11"; "3.11"].
Proof.
  rewrite (proj2 (proj2
             (@artifact_records_become_rows Demo.github (PyDict Demo.run7) (PyInt 7) "C2"
                (PyStr "Tests") (PyStr "experiment/c2-pip-cache-v2")
                (PyDict Demo.eco_artifact) Demo.artifact_name "3.11" [x01]
                [Demo.record_a; Demo.record_b] init _ _
                eq_refl eq_refl eq_refl eq_refl))).
  reflexivity.
Defined.
